(** * A1 bot: the Google Drive to Telegram conversion handler

    Shallow embedding of [bot.py]: the ledger functions [setup_database]
    and [log_to_db], and the conversation handlers, the central one
    being [handle_link].

    The program is glue around four collaborators (the chat platform,
    the download library, the SQLite engine and the local file system).
    The embedding keeps the control flow of the Python text (try /
    except / finally, early return, local variables of a frame) in a
    small state-and-exception monad, and takes the collaborators'
    answers from a record of functions of the whole world, so that a
    theorem quantified over that record speaks about every behaviour of
    the collaborators.  [await] is sequential composition: a handler
    runs its own steps in order. *)

From Stdlib Require Import ZArith String Ascii List Bool DecimalString.
From stdpp Require Import base decidable gmap strings.
Import ListNotations.
Local Open Scope string_scope.
Local Open Scope list_scope.

(** ** Strings *)

(** Python's [needle in hay] on [str]: some slice of [hay] equals
    [needle].  The markers tested by the program are ASCII, so the test
    on the UTF-8 bytes of a text agrees with the test on its code
    points. *)
Fixpoint contains (needle hay : string) : bool :=
  if String.prefix needle hay then true
  else match hay with
       | EmptyString => false
       | String _ rest => contains needle rest
       end.

(** [repr(s)] of a [str]: apostrophes around the text, or double
    quotes when the text holds an apostrophe and no double quote; the
    quote character and the backslash are escaped, and so are the ASCII
    control characters.  Bytes above 127 are left as they are, which is
    what Python does for printable characters. *)
Definition APOSTROPHE : ascii := ascii_of_nat 39.
Definition DOUBLE_QUOTE : ascii := ascii_of_nat 34.
Definition BACKSLASH : ascii := ascii_of_nat 92.

Fixpoint has_char (c : ascii) (s : string) : bool :=
  match s with
  | EmptyString => false
  | String a rest => Ascii.eqb a c || has_char c rest
  end.

Definition hex_digit (n : nat) : ascii :=
  match n with
  | 0 => "0" | 1 => "1" | 2 => "2" | 3 => "3" | 4 => "4"
  | 5 => "5" | 6 => "6" | 7 => "7" | 8 => "8" | 9 => "9"
  | 10 => "a" | 11 => "b" | 12 => "c" | 13 => "d" | 14 => "e"
  | _ => "f"
  end%char.

Definition escape_char (quote c : ascii) : string :=
  let n := nat_of_ascii c in
  if Ascii.eqb c quote || Ascii.eqb c BACKSLASH then String BACKSLASH (String c EmptyString)
  else if Nat.eqb n 9 then String BACKSLASH "t"
  else if Nat.eqb n 10 then String BACKSLASH "n"
  else if Nat.eqb n 13 then String BACKSLASH "r"
  else if Nat.ltb n 32 || Nat.eqb n 127 then
    String BACKSLASH
      (String "x"%char
         (String (hex_digit (Nat.div n 16)) (String (hex_digit (Nat.modulo n 16)) EmptyString)))
  else String c EmptyString.

Fixpoint escape (quote : ascii) (s : string) : string :=
  match s with
  | EmptyString => EmptyString
  | String c rest => String.append (escape_char quote c) (escape quote rest)
  end.

Definition py_repr (s : string) : string :=
  let quote :=
    if has_char APOSTROPHE s && negb (has_char DOUBLE_QUOTE s) then DOUBLE_QUOTE
    else APOSTROPHE in
  String quote (String.append (escape quote s) (String quote EmptyString)).

(** [str(e)] of the [FileNotFoundError] for [path]. *)
Definition file_not_found (path : string) : string :=
  String.append "[Errno 2] No such file or directory: " (py_repr path).

(** [str(n)] for an [int]. *)
Definition str_of_int (n : Z) : string := NilZero.string_of_int (Z.to_int n).

(** ** Exceptions *)

(** The exception classes the program names or meets.  [Exception] is
    the root of the ones the libraries raise; [UnboundLocalError] is
    what reading a local that was never assigned raises.
    [CancelledError] stands for what is raised outside [Exception] (the
    cancellation of the task, and likewise an interrupt or the exit of
    the interpreter): it derives from [BaseException] only and passes
    every except clause of the program. *)
Inductive exn_class : Type :=
| Exception
| TelegramError
| SqliteError
| OSError
| UnboundLocalError
| CancelledError.

Definition exn_class_eqb (c d : exn_class) : bool :=
  match c, d with
  | Exception, Exception | TelegramError, TelegramError
  | SqliteError, SqliteError | OSError, OSError
  | UnboundLocalError, UnboundLocalError
  | CancelledError, CancelledError => true
  | _, _ => false
  end.

(** [issubclass c d]: every class but [CancelledError] derives from
    [Exception]; the others are unrelated to one another. *)
Definition issubclass (c d : exn_class) : bool :=
  match d with
  | Exception => negb (exn_class_eqb c CancelledError)
  | _ => exn_class_eqb c d
  end.

(** An exception object: its class and [str(e)]. *)
Record exn : Type := mk_exn { exn_cls : exn_class; exn_msg : string }.

Definition isinstance (e : exn) (c : exn_class) : bool := issubclass (exn_cls e) c.

Inductive outcome (A : Type) : Type :=
| Ret (a : A)
| Raise (e : exn).
Arguments Ret {A} a.
Arguments Raise {A} e.

(** ** The ledger: one table of one SQLite file *)

(** A row of [videos] (columns of the CREATE TABLE statement). *)
Record Row : Type := mk_row {
  row_id : Z;
  row_user_id : string;
  row_original_link : string;
  row_telegram_file : option string;
  row_status : string;
  row_created_at : Z
}.

Record Table : Type := mk_table {
  tbl_name : string;
  tbl_columns : list (string * string);
  tbl_rows : list Row;
  tbl_seq : Z            (* AUTOINCREMENT: the largest id ever given *)
}.

(** The database file: its tables in creation order. *)
Definition Database : Type := list Table.

Definition videos_columns : list (string * string) :=
  [ ("id", "INTEGER PRIMARY KEY AUTOINCREMENT");
    ("user_id", "TEXT NOT NULL");
    ("original_link", "TEXT NOT NULL");
    ("telegram_file", "TEXT");
    ("status", "TEXT NOT NULL");
    ("created_at", "TIMESTAMP DEFAULT CURRENT_TIMESTAMP") ].

Definition has_table (name : string) (db : Database) : bool :=
  existsb (fun t => String.eqb (tbl_name t) name) db.

Definition find_table (name : string) (db : Database) : option Table :=
  find (fun t => String.eqb (tbl_name t) name) db.

Definition table_names (db : Database) : list string := map tbl_name db.

(** CREATE TABLE IF NOT EXISTS videos (...) *)
Definition create_videos_if_not_exists (db : Database) : Database :=
  if has_table "videos" db then db
  else db ++ [mk_table "videos" videos_columns [] 0].

(** The rows of [videos]; no table, no rows. *)
Definition ledger (db : Database) : list Row :=
  match find_table "videos" db with
  | Some t => tbl_rows t
  | None => []
  end.

(** Appending rows to the first table of that name. *)
Fixpoint append_rows (name : string) (rs : list Row) (db : Database) : Database :=
  match db with
  | [] => []
  | t :: rest =>
      if String.eqb (tbl_name t) name
      then mk_table (tbl_name t) (tbl_columns t) (tbl_rows t ++ rs)
             (fold_left Z.max (map row_id rs) (tbl_seq t)) :: rest
      else t :: append_rows name rs rest
  end.

(** ** The world and the collaborators *)

Inductive Statement : Type :=
| CreateVideos
| InsertVideo (user_id original_link : string) (telegram_file : option string)
    (status : string).

Inductive SqlOp : Type :=
| SqlConnect
| SqlExecute (stmt : Statement)
| SqlCommit
| SqlClose.

Inductive LogLevel : Type := INFO | ERROR.

(** Every call the program makes on a collaborator. *)
Inductive Call : Type :=
| CReplyText (text : string)         (* update.message.reply_text *)
| CEditText (text : string)          (* status_msg.edit_text *)
| CDownload (url : string)           (* gdown.download(url, fuzzy=True) *)
| COpen (path : string)              (* open(path, "rb") *)
| CReplyVideo (path : string)        (* update.message.reply_video *)
| CRemove (path : string)            (* os.remove *)
| CSql (op : SqlOp)                  (* sqlite3 *)
| CLog (level : LogLevel) (text : string).

Record World : Type := mk_world {
  files : gset string;      (* the paths on disk, [DB_FILE] apart *)
  database : Database;      (* the content of videos.db *)
  trace : list Call         (* the calls made so far, newest first *)
}.

(** The collaborators.  Each answer may depend on the whole world, the
    calls made so far included, so two calls of one function need not
    agree.  [None] in a [_fault] field: the call goes through.

    The database file is held in [database] and not in [files]: a
    download saved under the name of the database file, and its
    removal, would act on the ledger in the program and do not here.
    Every statement below on the database or the ledger after a
    download that returned a path assumes that path is not [DB_FILE]. *)
Record Collaborators : Type := mk_collab {
  (* reply_text / edit_text: the exception raised, if any *)
  tg_send : World -> Call -> option exn;
  (* gdown.download: its result and the files on disk afterwards *)
  gdown_download : World -> string -> outcome (option string) * gset string;
  (* open(path, "rb") of an existing file: the exception raised, if any *)
  open_fault : World -> string -> option exn;
  (* reply_video: the file_id of the sent video, or the exception *)
  reply_video : World -> string -> outcome string;
  (* os.remove of an existing file: the message of the OSError, if any *)
  remove_fault : World -> string -> option string;
  (* sqlite3: the message of the sqlite3.Error, if any *)
  sql_fault : World -> SqlOp -> option string;
  (* CURRENT_TIMESTAMP *)
  sql_now : World -> Z
}.

Definition record_call (c : Call) (w : World) : World :=
  mk_world (files w) (database w) (c :: trace w).

(** [os.path.exists]: the empty path names no file. *)
Definition path_exists (w : World) (p : string) : bool :=
  negb (String.eqb p EmptyString) && bool_decide (p ∈ files w).

(** ** A state-and-exception monad for Python frames *)

(** A running function: the world and the locals of its frame. *)
Record frame (L : Type) : Type := mk_frame { world : World; locals : L }.
Arguments mk_frame {L} world locals.
Arguments world {L} f.
Arguments locals {L} f.

Definition M (L A : Type) : Type := frame L -> outcome A * frame L.

Definition ret {L A} (a : A) : M L A := fun s => (Ret a, s).

Definition raise {L A} (e : exn) : M L A := fun s => (Raise e, s).

Definition bind {L A B} (m : M L A) (k : A -> M L B) : M L B :=
  fun s =>
    match m s with
    | (Ret a, s') => k a s'
    | (Raise e, s') => (Raise e, s')
    end.

Declare Scope py_scope.
Delimit Scope py_scope with py.
Notation "x <- m ;; k" := (bind m (fun x => k))
  (at level 100, m at next level, k at level 200, right associativity) : py_scope.
Notation "m ;; k" := (bind m (fun _ => k))
  (at level 100, k at level 200, right associativity) : py_scope.
Local Open Scope py_scope.

(** [except C as e: h]: the clauses of a try statement, in order. *)
Definition clause (L A : Type) : Type := exn_class * (exn -> M L A).

Fixpoint select_clause {L A} (e : exn) (cs : list (clause L A)) : option (exn -> M L A) :=
  match cs with
  | [] => None
  | (c, h) :: rest => if isinstance e c then Some h else select_clause e rest
  end.

(** [try: body except ...]: the first clause whose class the exception
    is an instance of handles it; an exception raised by a handler is
    not offered to the other clauses. *)
Definition try_except {L A} (body : M L A) (cs : list (clause L A)) : M L A :=
  fun s =>
    match body s with
    | (Ret a, s') => (Ret a, s')
    | (Raise e, s') =>
        match select_clause e cs with
        | Some h => h e s'
        | None => (Raise e, s')
        end
    end.

(** [try: body finally: fin]: [fin] runs whatever [body] did; an
    exception of [fin] replaces the outcome of [body]. *)
Definition try_finally {L A} (body : M L A) (fin : M L unit) : M L A :=
  fun s =>
    let '(r, s') := body s in
    match fin s' with
    | (Ret _, s'') => (r, s'')
    | (Raise e, s'') => (Raise e, s'')
    end.

(** Calling a function: a fresh frame on the same world. *)
Definition call {L L' A} (init : L') (f : M L' A) : M L A :=
  fun s =>
    let '(r, s') := f (mk_frame (world s) init) in
    (r, mk_frame (world s') (locals s)).

Definition get_locals {L} : M L L := fun s => (Ret (locals s), s).

Definition set_locals {L} (l : L) : M L unit :=
  fun s => (Ret tt, mk_frame (world s) l).

(** Running a function from a world. *)
Definition run {L A} (init : L) (f : M L A) (w : World) : outcome A * World :=
  let '(r, s) := f (mk_frame w init) in (r, world s).

(** ** Constants of the module *)

Definition DB_FILE : string := "videos.db".
Definition GET_LINK : Z := 0.
(** [ConversationHandler.END] *)
Definition END : Z := -1.

Definition HOST_MARKER : string := "drive.google.com".
Definition TOO_BIG_MARKER : string := "File is too big".
Definition TIMED_OUT_MARKER : string := "Timed out".

Definition MSG_PROMPT : string := "Please send your Google Drive video link 👇".
Definition MSG_CANCELLED : string := "Operation cancelled.".
Definition MSG_INVALID_LINK : string :=
  "⚠️ This doesn't look like a valid Google Drive link. " +:+
  "Please check the link and try /convertvd again.".
Definition MSG_DOWNLOADING : string := "⏳ Downloading video...".
Definition MSG_UPLOADING : string := "📤 Uploading to Telegram...".
Definition MSG_COMPLETE : string := "✅ Upload complete!".
Definition MSG_TOO_BIG : string :=
  "❌ Error: The video file is too large for me to upload to Telegram (max 2GB).".
Definition MSG_TIMED_OUT : string :=
  "❌ Error: The upload to Telegram timed out. This can happen with large files or network issues. Please try again.".
Definition MSG_UPLOAD_ERROR : string := "❌ An error occurred during upload: ".
Definition MSG_UNEXPECTED : string := "❌ An unexpected error occurred: ".
Definition DOWNLOAD_FAILED : string :=
  "Download failed. File might be private or deleted.".

(** ** The program *)

Section Program.

Variable O : Collaborators.

(** *** Primitive calls on the collaborators *)

(** A call that changes nothing but may raise. *)
Definition effect_call {L} (c : Call) (fault : World -> option exn) : M L unit :=
  fun s =>
    let w := world s in
    let s' := mk_frame (record_call c w) (locals s) in
    match fault w with
    | None => (Ret tt, s')
    | Some e => (Raise e, s')
    end.

(** [await update.message.reply_text(text)]; the message object it
    returns carries nothing the handler reads. *)
Definition reply_text {L} (text : string) : M L unit :=
  effect_call (CReplyText text) (fun w => tg_send O w (CReplyText text)).

(** [await status_msg.edit_text(text)] *)
Definition edit_text {L} (text : string) : M L unit :=
  effect_call (CEditText text) (fun w => tg_send O w (CEditText text)).

(** [logger.info] / [logger.error]: the logging module does not raise. *)
Definition logger_info {L} (text : string) : M L unit :=
  effect_call (CLog INFO text) (fun _ => None).

Definition logger_error {L} (text : string) : M L unit :=
  effect_call (CLog ERROR text) (fun _ => None).

(** [gdown.download(link, quiet=False, fuzzy=True)]: a path, [None], or
    an exception, and whatever it left on disk.  The database file is
    kept apart from [files]. *)
Definition gdown_call {L} (link : string) : M L (option string) :=
  fun s =>
    let w := world s in
    let '(r, fs) := gdown_download O w link in
    (r, mk_frame (mk_world fs (database w) (CDownload link :: trace w)) (locals s)).

(** [open(path, "rb")]: [FileNotFoundError] (an [OSError]) when there
    is no such file. *)
Definition open_rb {L} (path : string) : M L unit :=
  effect_call (COpen path)
    (fun w => if path_exists w path then open_fault O w path
              else Some (mk_exn OSError (file_not_found path))).

(** [await update.message.reply_video(video=f, supports_streaming=True)]
    followed by [.video.file_id] of the message sent. *)
Definition send_video {L} (path : string) : M L string :=
  fun s =>
    let w := world s in
    (reply_video O w path, mk_frame (record_call (CReplyVideo path) w) (locals s)).

(** [os.path.exists(path)] *)
Definition os_path_exists {L} (path : string) : M L bool :=
  fun s => (Ret (path_exists (world s) path), s).

(** [os.remove(path)]: raises [OSError] only.  [path] is taken not to
    be [DB_FILE] (see [Collaborators]). *)
Definition os_remove {L} (path : string) : M L unit :=
  fun s =>
    let w := world s in
    let t := CRemove path :: trace w in
    if path_exists w path then
      match remove_fault O w path with
      | Some m => (Raise (mk_exn OSError m), mk_frame (mk_world (files w) (database w) t) (locals s))
      | None => (Ret tt, mk_frame (mk_world (files w ∖ {[path]}) (database w) t) (locals s))
      end
    else
      (Raise (mk_exn OSError (file_not_found path)),
       mk_frame (mk_world (files w) (database w) t) (locals s)).

(** *** sqlite3 *)

(** A connection: the rows inserted and not yet committed. *)
Record Connection : Type := mk_conn { conn_pending : list Row }.

(** The locals of the two database functions: [conn], unbound ([None])
    until the assignment [conn = sqlite3.connect(DB_FILE)] is done. *)
Record db_locals : Type := mk_db_locals { conn : option Connection }.

Definition sql_call {L} (op : SqlOp) : M L unit :=
  effect_call (CSql op)
    (fun w => match sql_fault O w op with
              | Some m => Some (mk_exn SqliteError m)
              | None => None
              end).

(** [sqlite3.connect(DB_FILE)] *)
Definition sqlite3_connect {L} : M L Connection :=
  sql_call SqlConnect ;; ret (mk_conn []).

(** Reading the local [conn]. *)
Definition read_conn : M db_locals Connection :=
  l <- get_locals ;;
  match conn l with
  | Some c => ret c
  | None =>
      raise (mk_exn UnboundLocalError
               "cannot access local variable 'conn' where it is not associated with a value")
  end.

Definition set_database {L} (db : Database) : M L unit :=
  fun s =>
    let w := world s in
    (Ret tt, mk_frame (mk_world (files w) db (trace w)) (locals s)).

Definition get_world {L} : M L World := fun s => (Ret (world s), s).

(** [cursor.execute(stmt)] on a cursor of [conn].  The sqlite3 module
    opens a transaction before an INSERT and none before a CREATE
    TABLE, which therefore takes effect at once. *)
Definition cursor_execute (stmt : Statement) : M db_locals unit :=
  c <- read_conn ;;
  w <- get_world ;;
  sql_call (SqlExecute stmt) ;;
  match stmt with
  | CreateVideos => set_database (create_videos_if_not_exists (database w))
  | InsertVideo user_id original_link telegram_file status =>
      match find_table "videos" (database w) with
      | None => raise (mk_exn SqliteError "no such table: videos")
      | Some t =>
          let id := (tbl_seq t + 1 + Z.of_nat (length (conn_pending c)))%Z in
          let r := mk_row id user_id original_link telegram_file status (sql_now O w) in
          set_locals (mk_db_locals (Some (mk_conn (conn_pending c ++ [r]))))
      end
  end.

(** [conn.commit()] *)
Definition conn_commit : M db_locals unit :=
  c <- read_conn ;;
  sql_call SqlCommit ;;
  w <- get_world ;;
  set_database (append_rows "videos" (conn_pending c) (database w)) ;;
  set_locals (mk_db_locals (Some (mk_conn []))).

(** [conn.close()]: what was not committed is dropped.  Closing does
    not raise. *)
Definition conn_close : M db_locals unit :=
  effect_call (CSql SqlClose) (fun _ => None) ;;
  set_locals (mk_db_locals (Some (mk_conn []))).

(** The shape shared by the two database functions:
<<
    try:
        conn = sqlite3.connect(DB_FILE)
        cursor = conn.cursor()
        cursor.execute(...)
        conn.commit()
        ...
    except sqlite3.Error as e:
        logger.error(f"...{e}")
    finally:
        if conn:
            conn.close()
>>
    A connection object is truthy, so [if conn] only reads the local. *)
Definition with_connection (stmt : Statement) (after : M db_locals unit)
    (error_prefix : string) : M db_locals unit :=
  try_finally
    (try_except
       (c <- sqlite3_connect ;;
        set_locals (mk_db_locals (Some c)) ;;
        cursor_execute stmt ;;
        conn_commit ;;
        after)
       [ (SqliteError, fun e => logger_error (error_prefix +:+ exn_msg e)) ])
    (_ <- read_conn ;; conn_close).

Definition setup_database : M db_locals unit :=
  with_connection CreateVideos
    (logger_info ("Database '" +:+ DB_FILE +:+ "' initialized successfully."))
    "Database error: ".

Definition log_to_db (user_id : Z) (original_link : string)
    (telegram_file_id : option string) (status : string) : M db_locals unit :=
  with_connection
    (InsertVideo (str_of_int user_id) original_link telegram_file_id status)
    (ret tt)
    "Failed to log to database: ".

(** A function called from another frame starts with [conn] unbound. *)
Definition unbound : db_locals := mk_db_locals None.

(** *** The conversation handlers *)

Definition convert_start : M unit Z :=
  reply_text MSG_PROMPT ;; ret GET_LINK.

Definition cancel : M unit Z :=
  reply_text MSG_CANCELLED ;; ret END.

(** The locals of [handle_link] that outlive the try body. *)
Record link_locals : Type := mk_link_locals { output_path : option string }.

(** The body of the try statement of [handle_link]. *)
Definition convert_body (link : string) (user_id : Z) : M link_locals unit :=
  p <- gdown_call link ;;
  set_locals (mk_link_locals p) ;;
  match p with
  | None => raise (mk_exn Exception DOWNLOAD_FAILED)
  | Some path =>
      edit_text MSG_UPLOADING ;;
      telegram_file_id <- (open_rb path ;; send_video path) ;;
      call unbound (log_to_db user_id link (Some telegram_file_id) "done") ;;
      edit_text MSG_COMPLETE
  end.

(** [except TelegramError as e] *)
Definition on_telegram_error (link : string) (user_id : Z) (e : exn) : M link_locals unit :=
  logger_error ("Telegram upload error: " +:+ exn_msg e) ;;
  (if contains TOO_BIG_MARKER (exn_msg e) then edit_text MSG_TOO_BIG
   else if contains TIMED_OUT_MARKER (exn_msg e) then edit_text MSG_TIMED_OUT
   else edit_text (MSG_UPLOAD_ERROR +:+ exn_msg e)) ;;
  call unbound (log_to_db user_id link None "error").

(** [except Exception as e] *)
Definition on_exception (link : string) (user_id : Z) (e : exn) : M link_locals unit :=
  logger_error ("An unexpected error occurred: " +:+ exn_msg e) ;;
  edit_text (MSG_UNEXPECTED +:+ exn_msg e) ;;
  call unbound (log_to_db user_id link None "error").

(** The try statement without its finally clause. *)
Definition guarded_convert (link : string) (user_id : Z) : M link_locals unit :=
  try_except (convert_body link user_id)
    [ (TelegramError, on_telegram_error link user_id);
      (Exception, on_exception link user_id) ].

(** A [str] or [None] in a condition. *)
Definition truthy (p : option string) : bool :=
  match p with
  | Some s => negb (String.eqb s EmptyString)
  | None => false
  end.

(** The finally clause. *)
Definition cleanup : M link_locals unit :=
  l <- get_locals ;;
  match output_path l with
  | Some path =>
      ex <- (if truthy (Some path) then os_path_exists path else ret false) ;;
      if ex then
        try_except
          (os_remove path ;;
           logger_info ("Successfully deleted local file: " +:+ path))
          [ (OSError, fun e => logger_error ("Error deleting file " +:+ path +:+ ": " +:+ exn_msg e)) ]
      else ret tt
  | None => ret tt
  end.

Definition handle_link (link : string) (user_id : Z) : M link_locals Z :=
  if negb (contains HOST_MARKER link) then
    reply_text MSG_INVALID_LINK ;;
    ret END
  else
    reply_text MSG_DOWNLOADING ;;
    try_finally (guarded_convert link user_id) cleanup ;;
    ret END.

(** [handle_link] dispatched on an update: [output_path = None] first. *)
Definition run_handle_link (link : string) (user_id : Z) (w : World) : outcome Z * World :=
  run (mk_link_locals None) (handle_link link user_id) w.

Definition run_log_to_db (user_id : Z) (original_link : string)
    (telegram_file_id : option string) (status : string) (w : World) : outcome unit * World :=
  run unbound (log_to_db user_id original_link telegram_file_id status) w.

Definition run_setup_database (w : World) : outcome unit * World :=
  run unbound setup_database w.

End Program.

(** ** Observations on a world *)

(** The text a call shows to the user, if it is a message. *)
Definition chat_text (c : Call) : option string :=
  match c with
  | CReplyText t | CEditText t => Some t
  | _ => None
  end.

(** The user-facing messages of a trace, newest first. *)
Fixpoint chat_texts (t : list Call) : list string :=
  match t with
  | [] => []
  | c :: rest =>
      match chat_text c with
      | Some x => x :: chat_texts rest
      | None => chat_texts rest
      end
  end.

(** The final user-facing message. *)
Definition last_text (t : list Call) : option string := head (chat_texts t).

(** The text [on_telegram_error] sends for an error message [m]. *)
Definition upload_error_text (m : string) : string :=
  if contains TOO_BIG_MARKER m then MSG_TOO_BIG
  else if contains TIMED_OUT_MARKER m then MSG_TIMED_OUT
  else MSG_UPLOAD_ERROR +:+ m.

(** The texts the two except clauses of [handle_link] send. *)
Definition error_report (t : string) : Prop :=
  (exists m, t = upload_error_text m) \/ (exists m, t = MSG_UNEXPECTED +:+ m).

(** The row [log_to_db] inserts into a table [t] at the time [now]. *)
Definition new_row (t : Table) (user_id : Z) (original_link : string)
    (telegram_file_id : option string) (status : string) (now : Z) : Row :=
  mk_row (tbl_seq t + 1) (str_of_int user_id) original_link telegram_file_id status now.

(** [w'] is [w] after some more calls, none of them a message to the
    user, with the same files on disk. *)
Definition quiet_step (w w' : World) : Prop :=
  files w' = files w /\
  exists l, trace w' = l ++ trace w /\ chat_texts l = [].

(** [w'] is [w] after some more calls. *)
Definition later (w w' : World) : Prop := exists l, trace w' = l ++ trace w.

(** A computation that relates every world to the one it leaves. *)
Definition steps (R : World -> World -> Prop) {L A} (m : M L A) : Prop :=
  forall s, R (world s) (world (snd (m s))).

(** A computation that leaves the locals of its frame alone. *)
Definition keeps_locals {L A} (m : M L A) : Prop :=
  forall s, locals (snd (m s)) = locals s.

(** A computation whose exceptions all satisfy [P]. *)
Definition raises_only (P : exn -> Prop) {L A} (m : M L A) : Prop :=
  forall s e s', m s = (Raise e, s') -> P e.

(** The frame in which the try statement starts. *)
Definition try_entry (w : World) : frame link_locals :=
  mk_frame (record_call (CReplyText MSG_DOWNLOADING) w) (mk_link_locals None).

(** What an except clause of [handle_link] does after its log line: one
    edit of the status message, then the append. *)
Definition report (O : Collaborators) (link : string) (user_id : Z) (text : string) :
    M link_locals unit :=
  edit_text O text ;;
  call unbound (log_to_db O user_id link None "error").

(** ** Concrete collaborators and worlds *)

Definition NOW : Z := 1700000000.

(** A database file on which [setup_database] has run, an empty disk,
    no call made yet. *)
Definition w_ready : World :=
  mk_world ∅ [mk_table "videos" videos_columns [] 0] [].

(** An empty database file. *)
Definition w_fresh : World := mk_world ∅ [] [].

Definition downloads_video (w : World) (link : string) : outcome (option string) * gset string :=
  (Ret (Some "video.mp4"), files w ∪ {["video.mp4"]}).

(** Every collaborator does its work. *)
Definition nominal : Collaborators :=
  mk_collab (fun _ _ => None) downloads_video (fun _ _ => None)
    (fun _ _ => Ret "BAACAgQAAxkBAAIB")
    (fun _ _ => None) (fun _ _ => None) (fun _ => NOW).

(** The download and the upload work, the file cannot be deleted. *)
Definition deletion_denied : Collaborators :=
  mk_collab (fun _ _ => None) downloads_video (fun _ _ => None)
    (fun _ _ => Ret "BAACAgQAAxkBAAIB")
    (fun _ _ => Some "[Errno 13] Permission denied: 'video.mp4'")
    (fun _ _ => None) (fun _ => NOW).

(** The download and the upload work, the last edit of the status
    message fails. *)
Definition confirmation_lost : Collaborators :=
  mk_collab
    (fun _ c => match c with
                | CEditText t => if String.eqb t MSG_COMPLETE
                                 then Some (mk_exn TelegramError "Message to edit not found")
                                 else None
                | _ => None
                end)
    downloads_video (fun _ _ => None)
    (fun _ _ => Ret "BAACAgQAAxkBAAIB")
    (fun _ _ => None) (fun _ _ => None) (fun _ => NOW).

(** The file is private: the download returns [None]. *)
Definition private_file : Collaborators :=
  mk_collab (fun _ _ => None) (fun w _ => (Ret None, files w)) (fun _ _ => None)
    (fun _ _ => Ret "BAACAgQAAxkBAAIB")
    (fun _ _ => None) (fun _ _ => None) (fun _ => NOW).

(** The file is private and the database is locked by another writer. *)
Definition private_file_db_locked : Collaborators :=
  mk_collab (fun _ _ => None) (fun w _ => (Ret None, files w)) (fun _ _ => None)
    (fun _ _ => Ret "BAACAgQAAxkBAAIB")
    (fun _ _ => None)
    (fun _ op => match op with
                 | SqlExecute _ => Some "database is locked"
                 | _ => None
                 end)
    (fun _ => NOW).

(** The upload is refused with the given message. *)
Definition upload_refused (msg : string) : Collaborators :=
  mk_collab (fun _ _ => None) downloads_video (fun _ _ => None)
    (fun _ _ => Raise (mk_exn TelegramError msg))
    (fun _ _ => None) (fun _ _ => None) (fun _ => NOW).

Definition video_sent (t : list Call) : bool :=
  existsb (fun c => match c with CReplyVideo _ => true | _ => false end) t.

(** The network goes down during the upload: the upload times out and
    so does every later message to the platform. *)
Definition network_lost_at_upload : Collaborators :=
  mk_collab
    (fun w _ => if video_sent (trace w) then Some (mk_exn TelegramError "Timed out") else None)
    downloads_video (fun _ _ => None)
    (fun _ _ => Raise (mk_exn TelegramError "Timed out"))
    (fun _ _ => None) (fun _ _ => None) (fun _ => NOW).

(** The database file cannot be opened. *)
Definition db_unreachable : Collaborators :=
  mk_collab (fun _ _ => None) downloads_video (fun _ _ => None)
    (fun _ _ => Ret "BAACAgQAAxkBAAIB")
    (fun _ _ => None)
    (fun _ op => match op with
                 | SqlConnect => Some "unable to open database file"
                 | _ => None
                 end)
    (fun _ => NOW).

Definition DRIVE_LINK : string := "https://drive.google.com/file/d/ABC/view".

(** ** More observations *)

(** [w'] is [w] after some more calls, each of them satisfying [P]. *)
Definition emits (P : Call -> bool) (w w' : World) : Prop :=
  exists l, trace w' = l ++ trace w /\ forallb P l = true.

(** [w'] has the files of [w]. *)
Definition same_files (w w' : World) : Prop := files w' = files w.

(** [w'] has the database of [w]. *)
Definition same_database (w w' : World) : Prop := database w' = database w.

Definition is_download (c : Call) : bool :=
  match c with CDownload _ => true | _ => false end.

Definition is_upload (c : Call) : bool :=
  match c with CReplyVideo _ => true | _ => false end.

(** The calls that need a downloaded file. *)
Definition uses_artifact (c : Call) : bool :=
  match c with
  | COpen _ | CReplyVideo _ | CRemove _ => true
  | _ => false
  end.

(** The calls of the ledger functions: the engine and the logger. *)
Definition is_ledger_call (c : Call) : bool :=
  match c with
  | CSql _ | CLog _ _ => true
  | _ => false
  end.

(** A row written for the update [(user_id, link)] on the success path. *)
Definition done_row (user_id : Z) (link : string) (r : Row) : Prop :=
  row_user_id r = str_of_int user_id /\ row_original_link r = link /\
  row_status r = "done" /\ exists fid, row_telegram_file r = Some fid.

(** A row written for the update [(user_id, link)] by an except clause. *)
Definition error_row (user_id : Z) (link : string) (r : Row) : Prop :=
  row_user_id r = str_of_int user_id /\ row_original_link r = link /\
  row_status r = "error" /\ row_telegram_file r = None.

(** [w'] has the ledger rows of [w]. *)
Definition same_ledger (w w' : World) : Prop :=
  ledger (database w') = ledger (database w).

(** [w'] has the ledger rows of [w] and at most one more, which
    satisfies [Q]. *)
Definition at_most_one_row (Q : Row -> Prop) (w w' : World) : Prop :=
  ledger (database w') = ledger (database w) \/
  exists row, ledger (database w') = ledger (database w) ++ [row] /\ Q row.

Definition not_download (c : Call) : bool := negb (is_download c).

Definition not_upload (c : Call) : bool := negb (is_upload c).

(** Neither a download nor a call that needs a downloaded file. *)
Definition no_artifact (c : Call) : bool := negb (is_download c) && negb (uses_artifact c).

(** [w'] is [w] after some more calls, at most one of them an upload. *)
Definition at_most_one_upload (w w' : World) : Prop :=
  exists l, trace w' = l ++ trace w /\ length (List.filter is_upload l) <= 1.

(** The collaborators raise instances of [Exception] only: no
    cancellation, interrupt or exit reaches the handler through them. *)
Definition raises_exceptions_only (O : Collaborators) : Prop :=
  (forall w c e, tg_send O w c = Some e -> isinstance e Exception = true) /\
  (forall w link e, fst (gdown_download O w link) = Raise e -> isinstance e Exception = true) /\
  (forall w path e, open_fault O w path = Some e -> isinstance e Exception = true) /\
  (forall w path e, reply_video O w path = Raise e -> isinstance e Exception = true).

(** [str(e)] of the [UnboundLocalError] on [conn]. *)
Definition CONN_UNBOUND : string :=
  "cannot access local variable 'conn' where it is not associated with a value".

(** The try statement of [handle_link] from the point where the
    download has answered [r]. *)
Definition after_download (O : Collaborators) (link : string) (user_id : Z)
    (r : outcome (option string)) : M link_locals unit :=
  try_except
    (p <- (fun s => (r, s)) ;;
     set_locals (mk_link_locals p) ;;
     match p with
     | None => raise (mk_exn Exception DOWNLOAD_FAILED)
     | Some path =>
         edit_text O MSG_UPLOADING ;;
         telegram_file_id <- (open_rb O path ;; send_video O path) ;;
         call unbound (log_to_db O user_id link (Some telegram_file_id) "done") ;;
         edit_text O MSG_COMPLETE
     end)
    [ (TelegramError, on_telegram_error O link user_id);
      (Exception, on_exception O link user_id) ].

(** The world in which the download has just answered. *)
Definition downloaded (O : Collaborators) (link : string) (w : World) : World :=
  mk_world (snd (gdown_download O w link)) (database w) (CDownload link :: trace w).

(** ** The start of the process *)

Definition NEWLINE : string := String (Ascii.ascii_of_nat 10) EmptyString.

Definition MSG_GREETING : string :=
  "Hi! I can convert Google Drive video links into Telegram videos." +:+ NEWLINE +:+ NEWLINE +:+
  "Send /convertvd to start.".
Definition MSG_NO_TOKEN : string := "Error: BOT_TOKEN environment variable not set.".
Definition MSG_RUNNING : string := "Bot is running...".

(** [start_command] *)
Definition start_command (O : Collaborators) : M unit unit :=
  reply_text O MSG_GREETING.

(** How the script ends, seen from outside. *)
Inductive process_end : Type :=
| Exited (code : Z)            (* exit(code) *)
| Died (e : exn)               (* an exception nothing caught *)
| Polling (token : string).    (* application.run_polling() entered *)

Record process : Type := mk_process {
  stdout : list string;        (* the lines printed, in order *)
  left_world : World;
  ending : process_end
}.

(** The module run as a script: the check of [BOT_TOKEN] at import
    time, then [main()].  [BOT_TOKEN] is [os.environ.get("BOT_TOKEN")];
    [build_fault] is what [Application.builder().token(...).build()]
    raises, if anything.  Building the [ConversationHandler] and
    registering the handlers call nothing. *)
Definition bot_script (O : Collaborators) (build_fault : string -> option exn)
    (BOT_TOKEN : option string) (w : World) : process :=
  match BOT_TOKEN with
  | Some token =>
      if truthy (Some token) then
        match run_setup_database O w with
        | (Raise e, w') => mk_process [] w' (Died e)
        | (Ret _, w') =>
            match build_fault token with
            | Some e => mk_process [] w' (Died e)
            | None => mk_process [MSG_RUNNING] w' (Polling token)
            end
        end
      else mk_process [MSG_NO_TOKEN] w (Exited 1)
  | None => mk_process [MSG_NO_TOKEN] w (Exited 1)
  end.

(** The database file cannot be opened while the video is being
    sent, and can again afterwards: only the connection made right
    after the upload fails. *)
Definition db_unreachable_after_upload : Collaborators :=
  mk_collab (fun _ _ => None) downloads_video (fun _ _ => None)
    (fun _ _ => Ret "BAACAgQAAxkBAAIB")
    (fun _ _ => None)
    (fun w op => match op, trace w with
                 | SqlConnect, CReplyVideo _ :: _ => Some "unable to open database file"
                 | _, _ => None
                 end)
    (fun _ => NOW).

(** The task is cancelled while the upload is awaited. *)
Definition cancelled_at_upload : Collaborators :=
  mk_collab (fun _ _ => None) downloads_video (fun _ _ => None)
    (fun _ _ => Raise (mk_exn CancelledError EmptyString))
    (fun _ _ => None) (fun _ _ => None) (fun _ => NOW).


(** The download raises [e]. *)
Definition download_raises (e : exn) : Collaborators :=
  mk_collab (fun _ _ => None) (fun w _ => (Raise e, files w)) (fun _ _ => None)
    (fun _ _ => Ret "BAACAgQAAxkBAAIB")
    (fun _ _ => None) (fun _ _ => None) (fun _ => NOW).

(** The download names a file it did not leave on disk. *)
Definition download_leaves_nothing : Collaborators :=
  mk_collab (fun _ _ => None) (fun w _ => (Ret (Some "video.mp4"), files w))
    (fun _ _ => None)
    (fun _ _ => Ret "BAACAgQAAxkBAAIB")
    (fun _ _ => None) (fun _ _ => None) (fun _ => NOW).

(** * Properties *)

(** ** The substring test *)

Lemma prefix_app (n post : string) : String.prefix n (n +:+ post) = true.
Proof.
  induction n as [|a n IH]; simpl.
  - destruct post; reflexivity.
  - destruct (Ascii.ascii_dec a a) as [_|Hne]; [exact IH | contradiction].
Qed.

Lemma prefix_inv (n h : string) :
  String.prefix n h = true -> exists post, h = n +:+ post.
Proof.
  revert h. induction n as [|a n IH]; intros h Hp.
  - exists h. reflexivity.
  - destruct h as [|b h]; simpl in Hp; [discriminate|].
    destruct (Ascii.ascii_dec a b) as [->|_]; [|discriminate].
    destruct (IH h Hp) as [post ->]. exists post. reflexivity.
Qed.

Lemma contains_app (n pre post : string) :
  contains n (pre +:+ n +:+ post) = true.
Proof.
  induction pre as [|a pre IH].
  - change (EmptyString +:+ n +:+ post) with (n +:+ post).
    pose proof (prefix_app n post) as Hp.
    destruct (n +:+ post); cbn [contains]; rewrite Hp; reflexivity.
  - change (String a pre +:+ n +:+ post) with (String a (pre +:+ n +:+ post)).
    cbn [contains]. rewrite IH. destruct (String.prefix _ _); reflexivity.
Qed.

Lemma contains_inv (n h : string) :
  contains n h = true -> exists pre post, h = pre +:+ n +:+ post.
Proof.
  induction h as [|a h IH]; cbn [contains]; intros Hc.
  - destruct (String.prefix n EmptyString) eqn:Hp; [|discriminate].
    apply prefix_inv in Hp. destruct Hp as [post ->]. exists EmptyString, post. reflexivity.
  - destruct (String.prefix n (String a h)) eqn:Hp.
    + apply prefix_inv in Hp. destruct Hp as [post ->]. exists EmptyString, post. reflexivity.
    + destruct (IH Hc) as (pre & post & ->). exists (String a pre), post. reflexivity.
Qed.

Example contains_drive_link : contains HOST_MARKER DRIVE_LINK = true.
Proof. reflexivity. Qed.

Example contains_other_host :
  contains HOST_MARKER "https://example.com/video.mp4" = false.
Proof. reflexivity. Qed.

Example str_of_int_examples :
  str_of_int 42 = "42" /\ str_of_int (-7) = "-7" /\ str_of_int 0 = "0".
Proof. repeat split; reflexivity. Qed.

Example py_repr_examples :
  py_repr "video.mp4" = "'video.mp4'" /\
  py_repr EmptyString = "''" /\
  py_repr "it's.mp4" = String DOUBLE_QUOTE ("it's.mp4" +:+ String DOUBLE_QUOTE EmptyString) /\
  py_repr (String (ascii_of_nat 10) "a") = String APOSTROPHE (String BACKSLASH "na'").
Proof. repeat split; reflexivity. Qed.

(** [contains] is Python's [in]: the needle occurs somewhere. *)
Lemma contains_spec (n h : string) :
  contains n h = true <-> exists pre post, h = pre +:+ n +:+ post.
Proof.
  split.
  - apply contains_inv.
  - intros (pre & post & ->). apply contains_app.
Qed.

(** ** Composing computations *)

#[local] Arguments String.append : simpl never.

Lemma select_clause_in {L A} (e : exn) (cs : list (clause L A)) (h : exn -> M L A) :
  select_clause e cs = Some h -> exists c, In (c, h) cs /\ isinstance e c = true.
Proof.
  induction cs as [|[c h'] cs IH]; simpl; intros Hs.
  - discriminate.
  - destruct (isinstance e c) eqn:Hi.
    + injection Hs as <-. exists c. auto.
    + destruct (IH Hs) as (c' & Hin & Hc'). exists c'. auto.
Qed.

Section Stepwise.

Variable R : World -> World -> Prop.
Hypothesis R_refl : forall w, R w w.
Hypothesis R_trans : forall a b c, R a b -> R b c -> R a c.

Lemma steps_ret {L A} (a : A) : steps R (@ret L A a).
Proof. intros s. apply R_refl. Qed.

Lemma steps_raise {L A} (e : exn) : steps R (@raise L A e).
Proof. intros s. apply R_refl. Qed.

Lemma steps_get_locals {L} : steps R (@get_locals L).
Proof. intros s. apply R_refl. Qed.

Lemma steps_set_locals {L} (l : L) : steps R (set_locals l).
Proof. intros s. apply R_refl. Qed.

Lemma steps_get_world {L} : steps R (@get_world L).
Proof. intros s. apply R_refl. Qed.

Lemma steps_bind {L A B} (m : M L A) (k : A -> M L B) :
  steps R m -> (forall a, steps R (k a)) -> steps R (bind m k).
Proof.
  intros Hm Hk s. unfold bind. specialize (Hm s).
  destruct (m s) as [[a|e] s']; simpl in *.
  - eapply R_trans; [exact Hm | apply Hk].
  - exact Hm.
Qed.

Lemma steps_try_except {L A} (body : M L A) (cs : list (clause L A)) :
  steps R body ->
  (forall c h, In (c, h) cs -> forall e, steps R (h e)) ->
  steps R (try_except body cs).
Proof.
  intros Hb Hcs s. unfold try_except. specialize (Hb s).
  destruct (body s) as [[a|e] s']; simpl in *; [exact Hb|].
  destruct (select_clause e cs) as [h|] eqn:Hs; simpl; [|exact Hb].
  destruct (select_clause_in _ _ _ Hs) as (c & Hin & _).
  eapply R_trans; [exact Hb | eapply Hcs; eassumption].
Qed.

Lemma steps_try_finally {L A} (body : M L A) (fin : M L unit) :
  steps R body -> steps R fin -> steps R (try_finally body fin).
Proof.
  intros Hb Hf s. unfold try_finally. specialize (Hb s).
  destruct (body s) as [r s']; simpl in *. specialize (Hf s').
  destruct (fin s') as [[u|e] s'']; simpl in *; eapply R_trans; eassumption.
Qed.

Lemma steps_call {L L' A} (init : L') (f : M L' A) :
  steps R f -> steps R (@call L L' A init f).
Proof.
  intros Hf s. unfold call. specialize (Hf (mk_frame (world s) init)).
  destruct (f _) as [r s']; simpl in *. exact Hf.
Qed.

Lemma steps_effect_call {L} (c : Call) (fault : World -> option exn) :
  (forall w, R w (record_call c w)) -> steps R (@effect_call L c fault).
Proof.
  intros Hc s. unfold effect_call. destruct (fault (world s)); simpl; apply Hc.
Qed.

End Stepwise.

Lemma keeps_locals_ret {L A} (a : A) : keeps_locals (@ret L A a).
Proof. intros s. reflexivity. Qed.

Lemma keeps_locals_raise {L A} (e : exn) : keeps_locals (@raise L A e).
Proof. intros s. reflexivity. Qed.

Lemma keeps_locals_bind {L A B} (m : M L A) (k : A -> M L B) :
  keeps_locals m -> (forall a, keeps_locals (k a)) -> keeps_locals (bind m k).
Proof.
  intros Hm Hk s. unfold bind. specialize (Hm s).
  destruct (m s) as [[a|e] s']; simpl in *.
  - rewrite Hk. exact Hm.
  - exact Hm.
Qed.

Lemma keeps_locals_call {L L' A} (init : L') (f : M L' A) :
  keeps_locals (@call L L' A init f).
Proof. intros s. unfold call. destruct (f _) as [r s']. reflexivity. Qed.

Lemma keeps_locals_effect_call {L} (c : Call) (fault : World -> option exn) :
  keeps_locals (@effect_call L c fault).
Proof. intros s. unfold effect_call. destruct (fault (world s)); reflexivity. Qed.

(** ** Which exceptions a computation can raise *)
Section Raising.

Variable P : exn -> Prop.

Lemma raises_only_ret {L A} (a : A) : raises_only P (@ret L A a).
Proof. intros s e s' H. discriminate H. Qed.

Lemma raises_only_raise {L A} (e : exn) : P e -> raises_only P (@raise L A e).
Proof. intros He s e' s' H. injection H as <- _. exact He. Qed.

Lemma raises_only_get_locals {L} : raises_only P (@get_locals L).
Proof. intros s e s' H. discriminate H. Qed.

Lemma raises_only_set_locals {L} (l : L) : raises_only P (set_locals l).
Proof. intros s e s' H. discriminate H. Qed.

Lemma raises_only_get_world {L} : raises_only P (@get_world L).
Proof. intros s e s' H. discriminate H. Qed.

Lemma raises_only_set_database {L} (db : Database) : raises_only P (@set_database L db).
Proof. intros s e s' H. discriminate H. Qed.

Lemma raises_only_bind {L A B} (m : M L A) (k : A -> M L B) :
  raises_only P m -> (forall a, raises_only P (k a)) -> raises_only P (bind m k).
Proof.
  intros Hm Hk s e s' H. unfold bind in H.
  destruct (m s) as [[a|e0] s0] eqn:Hms.
  - exact (Hk a s0 e s' H).
  - injection H as <- _. exact (Hm s e0 s0 Hms).
Qed.

Lemma raises_only_try_except {L A} (body : M L A) (cs : list (clause L A)) :
  raises_only P body ->
  (forall c h, In (c, h) cs -> forall e, raises_only P (h e)) ->
  raises_only P (try_except body cs).
Proof.
  intros Hb Hcs s e s' H. unfold try_except in H.
  destruct (body s) as [[a|e0] s0] eqn:Hbs; [discriminate H|].
  destruct (select_clause e0 cs) as [h|] eqn:Hs.
  - destruct (select_clause_in _ _ _ Hs) as (c & Hin & _).
    exact (Hcs c h Hin e0 s0 e s' H).
  - injection H as <- _. exact (Hb s e0 s0 Hbs).
Qed.

Lemma raises_only_try_finally {L A} (body : M L A) (fin : M L unit) :
  raises_only P body -> raises_only P fin -> raises_only P (try_finally body fin).
Proof.
  intros Hb Hf s e s' H. unfold try_finally in H.
  destruct (body s) as [r s0] eqn:Hbs.
  destruct (fin s0) as [[u|e1] s1] eqn:Hfs.
  - injection H as -> _. exact (Hb s e s0 Hbs).
  - injection H as <- _. exact (Hf s0 e1 s1 Hfs).
Qed.

Lemma raises_only_call {L L' A} (init : L') (f : M L' A) :
  raises_only P f -> raises_only P (@call L L' A init f).
Proof.
  intros Hf s e s' H. unfold call in H.
  destruct (f _) as [r s0] eqn:Hfs. injection H as -> _.
  exact (Hf _ e s0 Hfs).
Qed.

Lemma raises_only_effect_call {L} (c : Call) (fault : World -> option exn) :
  (forall w e, fault w = Some e -> P e) -> raises_only P (@effect_call L c fault).
Proof.
  intros Hc s e s' H. unfold effect_call in H.
  destruct (fault (world s)) as [e0|] eqn:Hf; [|discriminate H].
  injection H as <- _. exact (Hc _ _ Hf).
Qed.

End Raising.

(** ** The two relations used below are preorders *)

Lemma quiet_step_refl (w : World) : quiet_step w w.
Proof. split; [reflexivity|]. exists []. split; reflexivity. Qed.

Lemma chat_texts_app (l1 l2 : list Call) :
  chat_texts (l1 ++ l2) = chat_texts l1 ++ chat_texts l2.
Proof.
  induction l1 as [|c l1 IH]; simpl; [reflexivity|].
  destruct (chat_text c); simpl; rewrite IH; reflexivity.
Qed.

Lemma quiet_step_trans (a b c : World) :
  quiet_step a b -> quiet_step b c -> quiet_step a c.
Proof.
  intros [Hf1 (l1 & Ht1 & Hq1)] [Hf2 (l2 & Ht2 & Hq2)]. split.
  - congruence.
  - exists (l2 ++ l1). split.
    + rewrite Ht2, Ht1. apply app_assoc.
    + rewrite chat_texts_app, Hq1, Hq2. reflexivity.
Qed.

Lemma quiet_step_chat_texts (w w' : World) :
  quiet_step w w' -> chat_texts (trace w') = chat_texts (trace w).
Proof.
  intros [_ (l & -> & Hq)]. rewrite chat_texts_app, Hq. reflexivity.
Qed.

Lemma later_refl (w : World) : later w w.
Proof. exists []. reflexivity. Qed.

Lemma later_trans (a b c : World) : later a b -> later b c -> later a c.
Proof.
  intros [l1 H1] [l2 H2]. exists (l2 ++ l1). rewrite H2, H1. apply app_assoc.
Qed.

Lemma later_record (c : Call) (w : World) : later w (record_call c w).
Proof. exists [c]. reflexivity. Qed.

(** ** Proof automation *)

#[local] Arguments find_table : simpl never.
#[local] Arguments append_rows : simpl never.
#[local] Arguments create_videos_if_not_exists : simpl never.
#[local] Arguments contains : simpl never.
#[local] Arguments str_of_int : simpl never.
#[local] Arguments path_exists : simpl never.

(** Unfolding the database functions down to the monad. *)
Ltac unfold_db :=
  unfold run_log_to_db, run_setup_database, run, log_to_db, setup_database,
    with_connection, try_finally, try_except, sqlite3_connect, cursor_execute,
    conn_commit, conn_close, read_conn, sql_call, logger_error, logger_info,
    effect_call, set_database, get_world, set_locals, get_locals, bind, ret,
    raise, unbound.

(** Case analysis on the answers of the storage engine. *)
Ltac case_sql :=
  repeat (match goal with
          | |- context [sql_fault ?O ?w ?op] => destruct (sql_fault O w op) eqn:?
          | |- context [find_table ?n ?d] => destruct (find_table n d) eqn:?
          end; cbn).

(** Walking down a computation with the lemmas on [steps]. *)
Ltac steps_tac :=
  repeat (intros;
    match goal with
    | |- steps _ (match ?x with _ => _ end) => destruct x
    | |- steps _ (bind _ _) => eapply steps_bind
    | |- steps _ (try_except _ _) => eapply steps_try_except
    | |- steps _ (try_finally _ _) => eapply steps_try_finally
    | |- steps _ (call _ _) => eapply steps_call
    | |- steps _ (effect_call _ _) => eapply steps_effect_call
    | |- steps _ (ret _) => eapply steps_ret
    | |- steps _ (raise _) => eapply steps_raise
    | |- steps _ get_locals => eapply steps_get_locals
    | |- steps _ (set_locals _) => eapply steps_set_locals
    | |- steps _ get_world => eapply steps_get_world
    | H : In _ (_ :: _) |- _ => destruct H as [H|H]; [inversion H; subst|]
    | H : In _ [] |- _ => destruct H
    end).

(** ** The ledger *)

Lemma find_table_has_table (name : string) (db : Database) (t : Table) :
  find_table name db = Some t -> has_table name db = true.
Proof.
  unfold find_table, has_table. induction db as [|u db IH]; simpl; [discriminate|].
  destruct (String.eqb (tbl_name u) name); [reflexivity | exact IH].
Qed.

Lemma has_table_find_table (name : string) (db : Database) :
  has_table name db = true -> exists t, find_table name db = Some t.
Proof.
  unfold find_table, has_table. induction db as [|u db IH]; simpl; [discriminate|].
  destruct (String.eqb (tbl_name u) name); [exists u; reflexivity | exact IH].
Qed.

Lemma has_table_names (name : string) (db : Database) :
  has_table name db = false -> ~ In name (table_names db).
Proof.
  unfold has_table, table_names. induction db as [|u db IH]; simpl; intros Hh Hin.
  - exact Hin.
  - destruct (String.eqb (tbl_name u) name) eqn:He; [discriminate|].
    destruct Hin as [Hin|Hin].
    + apply String.eqb_neq in He. contradiction.
    + exact (IH Hh Hin).
Qed.

Lemma ledger_append_rows (rs : list Row) (db : Database) (t : Table) :
  find_table "videos" db = Some t ->
  ledger (append_rows "videos" rs db) = ledger db ++ rs.
Proof.
  unfold ledger, find_table. revert t.
  induction db as [|u db IH]; intros t; simpl; [discriminate|].
  unfold append_rows; fold append_rows.
  destruct (String.eqb (tbl_name u) "videos") eqn:He; simpl; rewrite He.
  - reflexivity.
  - intros Hf. exact (IH t Hf).
Qed.

Lemma append_rows_nil (name : string) (db : Database) :
  append_rows name [] db = db.
Proof.
  induction db as [|[n c r q] db IH]; unfold append_rows; fold append_rows; simpl.
  - reflexivity.
  - destruct (String.eqb n name).
    + rewrite app_nil_r. reflexivity.
    + rewrite IH. reflexivity.
Qed.

Lemma create_videos_has_table (db : Database) :
  has_table "videos" (create_videos_if_not_exists db) = true.
Proof.
  unfold create_videos_if_not_exists.
  destruct (has_table "videos" db) eqn:Hh; [exact Hh|].
  unfold has_table. rewrite existsb_app. simpl. apply orb_true_r.
Qed.

Lemma create_videos_present (db : Database) :
  has_table "videos" db = true -> create_videos_if_not_exists db = db.
Proof. intros Hh. unfold create_videos_if_not_exists. rewrite Hh. reflexivity. Qed.

Lemma create_videos_idempotent (db : Database) :
  create_videos_if_not_exists (create_videos_if_not_exists db) =
  create_videos_if_not_exists db.
Proof. apply create_videos_present, create_videos_has_table. Qed.

Lemma create_videos_NoDup (db : Database) :
  List.NoDup (table_names db) ->
  List.NoDup (table_names (create_videos_if_not_exists db)).
Proof.
  intros Hnd. unfold create_videos_if_not_exists.
  destruct (has_table "videos" db) eqn:Hh; [exact Hnd|].
  unfold table_names. rewrite List.map_app. simpl.
  apply List.NoDup_app.
  - exact Hnd.
  - apply List.NoDup_cons; [intros [] | apply List.NoDup_nil].
  - intros x Hx [<-|[]]. exact (has_table_names _ _ Hh Hx).
Qed.

(** Walking down a computation with the lemmas on [raises_only]. *)
Ltac raises_tac :=
  repeat (intros;
    match goal with
    | |- raises_only _ (match ?x with _ => _ end) => destruct x
    | |- raises_only _ (bind _ _) => eapply raises_only_bind
    | |- raises_only _ (try_except _ _) => eapply raises_only_try_except
    | |- raises_only _ (try_finally _ _) => eapply raises_only_try_finally
    | |- raises_only _ (call _ _) => eapply raises_only_call
    | |- raises_only _ (effect_call _ _) => eapply raises_only_effect_call
    | |- raises_only _ (ret _) => eapply raises_only_ret
    | |- raises_only _ (raise _) => eapply raises_only_raise
    | |- raises_only _ get_locals => eapply raises_only_get_locals
    | |- raises_only _ (set_locals _) => eapply raises_only_set_locals
    | |- raises_only _ get_world => eapply raises_only_get_world
    | |- raises_only _ (set_database _) => eapply raises_only_set_database
    | H : In _ (_ :: _) |- _ => destruct H as [H|H]; [inversion H; subst|]
    | H : In _ [] |- _ => destruct H
    end).

Section Ledger.

Variable O : Collaborators.

Lemma quiet_record (c : Call) (w : World) :
  chat_text c = None -> quiet_step w (record_call c w).
Proof.
  intros Hc. split; [reflexivity|]. exists [c]. split; [reflexivity|].
  simpl. rewrite Hc. reflexivity.
Qed.

Lemma quiet_set_database {L} (db : Database) : steps quiet_step (@set_database L db).
Proof. intros s. split; [reflexivity|]. exists []. split; reflexivity. Qed.

Lemma with_connection_quiet (stmt : Statement) (after : M db_locals unit) (prefix : string) :
  steps quiet_step after -> steps quiet_step (with_connection O stmt after prefix).
Proof.
  intros Ha.
  unfold with_connection, sqlite3_connect, cursor_execute, conn_commit, conn_close,
    read_conn, sql_call, logger_error, logger_info.
  steps_tac; intros;
    first [ apply quiet_step_refl | eapply quiet_step_trans; eassumption
          | apply quiet_set_database | assumption
          | apply quiet_record; reflexivity ].
Qed.

(** The ledger functions send nothing to the user and leave the disk
    alone, whatever the engine answers. *)
Lemma log_to_db_quiet (user_id : Z) (link : string) (f : option string) (st : string) :
  steps quiet_step (log_to_db O user_id link f st).
Proof. apply with_connection_quiet. intros s. apply quiet_step_refl. Qed.

Lemma setup_database_quiet : steps quiet_step (setup_database O).
Proof.
  apply with_connection_quiet. unfold logger_info.
  apply steps_effect_call. intros w. apply quiet_record. reflexivity.
Qed.

(** What the ledger functions raise is an [Exception]: they raise
    nothing but the [UnboundLocalError] of their finally clause. *)
Lemma with_connection_raises (stmt : Statement) (after : M db_locals unit) (prefix : string) :
  raises_only (fun e => isinstance e Exception = true) after ->
  raises_only (fun e => isinstance e Exception = true) (with_connection O stmt after prefix).
Proof.
  intros Ha.
  unfold with_connection, sqlite3_connect, cursor_execute, conn_commit, conn_close,
    read_conn, sql_call, logger_error, logger_info.
  raises_tac; intros;
    first [ assumption | reflexivity | discriminate
          | match goal with
            | H : match ?x with _ => _ end = Some _ |- _ =>
                destruct x; [injection H as <-; reflexivity | discriminate H]
            end ].
Qed.

Lemma log_to_db_raises (user_id : Z) (link : string) (f : option string) (st : string) :
  raises_only (fun e => isinstance e Exception = true) (log_to_db O user_id link f st).
Proof. apply with_connection_raises. apply raises_only_ret. Qed.

(** The append when the engine does its work and the table exists. *)
Lemma log_to_db_ok (user_id : Z) (link : string) (f : option string) (st : string)
    (w : World) (t : Table) :
  (forall w' op, sql_fault O w' op = None) ->
  find_table "videos" (database w) = Some t ->
  log_to_db O user_id link f st (mk_frame w unbound) =
  (Ret tt,
   mk_frame
     (mk_world (files w)
        (append_rows "videos"
           [new_row t user_id link f st (sql_now O (record_call (CSql SqlConnect) w))]
           (database w))
        (CSql SqlClose :: CSql SqlCommit
         :: CSql (SqlExecute (InsertVideo (str_of_int user_id) link f st))
         :: CSql SqlConnect :: trace w))
     (mk_db_locals (Some (mk_conn [])))).
Proof.
  intros Hc Ht. unfold_db. cbn. rewrite !Hc. cbn. rewrite Ht. cbn. rewrite !Hc. cbn.
  unfold new_row. rewrite Z.add_0_r. reflexivity.
Qed.

(** Once connected, the append returns, whatever goes wrong later. *)
Lemma log_to_db_connected (user_id : Z) (link : string) (f : option string) (st : string)
    (w : World) :
  sql_fault O w SqlConnect = None ->
  fst (log_to_db O user_id link f st (mk_frame w unbound)) = Ret tt.
Proof.
  intros Hc. unfold_db. cbn. rewrite Hc. cbn. case_sql; reflexivity.
Qed.

(** What an append does to the ledger: nothing, or one more row. *)
Lemma log_to_db_ledger (user_id : Z) (link : string) (f : option string) (st : string)
    (w : World) :
  let w' := world (snd (log_to_db O user_id link f st (mk_frame w unbound))) in
  ledger (database w') = ledger (database w) \/
  exists row,
    ledger (database w') = ledger (database w) ++ [row] /\
    row_user_id row = str_of_int user_id /\ row_original_link row = link /\
    row_telegram_file row = f /\ row_status row = st.
Proof.
  unfold_db. cbn. case_sql; try (left; reflexivity).
  right. eexists. split; [eapply ledger_append_rows; eassumption|].
  repeat split; reflexivity.
Qed.

(** [setup_database] once connected. *)
Lemma setup_database_connected (w : World) :
  sql_fault O w SqlConnect = None ->
  fst (run_setup_database O w) = Ret tt /\
  (database (snd (run_setup_database O w)) = database w \/
   database (snd (run_setup_database O w)) = create_videos_if_not_exists (database w)).
Proof.
  intros Hc. unfold_db. cbn. rewrite Hc. cbn.
  case_sql; rewrite ?append_rows_nil;
    (split; [reflexivity | first [left; reflexivity | right; reflexivity]]).
Qed.

Lemma setup_database_created (w : World) :
  sql_fault O w SqlConnect = None ->
  sql_fault O (record_call (CSql SqlConnect) w) (SqlExecute CreateVideos) = None ->
  database (snd (run_setup_database O w)) = create_videos_if_not_exists (database w).
Proof.
  intros Hc He. unfold_db. cbn. rewrite Hc. cbn. rewrite He. cbn.
  case_sql; rewrite ?append_rows_nil; reflexivity.
Qed.

End Ledger.

(** ** The handler, piece by piece *)

#[local] Arguments log_to_db : simpl never.
#[local] Arguments upload_error_text : simpl never.

Lemma path_exists_removed (fs : gset string) (db : Database) (t : list Call) (p : string) :
  path_exists (mk_world (fs ∖ {[p]}) db t) p = false.
Proof.
  unfold path_exists. simpl. apply andb_false_intro2.
  apply bool_decide_eq_false.
  intros [_ Hn]%elem_of_difference. apply Hn, elem_of_singleton. reflexivity.
Qed.

Lemma isinstance_TelegramError (e : exn) :
  isinstance e TelegramError = true <-> exn_cls e = TelegramError.
Proof.
  unfold isinstance, issubclass. destruct (exn_cls e); simpl; split;
    intros H; (reflexivity || discriminate).
Qed.

Section Handler.

Variable O : Collaborators.

(** The finally clause, case by case. *)
Lemma cleanup_run (s : frame link_locals) :
  cleanup O s =
  match output_path (locals s) with
  | Some path =>
      if path_exists (world s) path then
        match remove_fault O (world s) path with
        | None =>
            (Ret tt,
             mk_frame
               (mk_world (files (world s) ∖ {[path]}) (database (world s))
                  (CLog INFO ("Successfully deleted local file: " +:+ path)
                   :: CRemove path :: trace (world s)))
               (locals s))
        | Some m =>
            (Ret tt,
             mk_frame
               (mk_world (files (world s)) (database (world s))
                  (CLog ERROR ("Error deleting file " +:+ path +:+ ": " +:+ m)
                   :: CRemove path :: trace (world s)))
               (locals s))
        end
      else (Ret tt, s)
  | None => (Ret tt, s)
  end.
Proof.
  unfold cleanup, get_locals, truthy, os_path_exists, os_remove, try_except,
    logger_info, logger_error, effect_call, bind, ret.
  destruct (output_path (locals s)) as [path|]; [|reflexivity].
  destruct (String.eqb path EmptyString) eqn:He; cbn.
  - unfold path_exists. rewrite He. reflexivity.
  - destruct (path_exists (world s) path) eqn:Hp; cbn; rewrite ?Hp; cbn; [|reflexivity].
    destruct (remove_fault O (world s) path); reflexivity.
Qed.

(** The finally clause never raises, sends nothing to the user and
    writes nothing to the ledger. *)
Lemma cleanup_returns (s : frame link_locals) : fst (cleanup O s) = Ret tt.
Proof.
  rewrite cleanup_run. destruct (output_path (locals s)); [|reflexivity].
  destruct (path_exists _ _); [|reflexivity].
  destruct (remove_fault _ _ _); reflexivity.
Qed.

Lemma cleanup_database (s : frame link_locals) :
  database (world (snd (cleanup O s))) = database (world s).
Proof.
  rewrite cleanup_run. destruct (output_path (locals s)); [|reflexivity].
  destruct (path_exists _ _); [|reflexivity].
  destruct (remove_fault _ _ _); reflexivity.
Qed.

Lemma cleanup_chat_texts (s : frame link_locals) :
  chat_texts (trace (world (snd (cleanup O s)))) = chat_texts (trace (world s)).
Proof.
  rewrite cleanup_run. destruct (output_path (locals s)); [|reflexivity].
  destruct (path_exists _ _); [|reflexivity].
  destruct (remove_fault _ _ _); reflexivity.
Qed.

Lemma cleanup_later (s : frame link_locals) :
  later (world s) (world (snd (cleanup O s))).
Proof.
  rewrite cleanup_run. destruct (output_path (locals s)); [|apply later_refl].
  destruct (path_exists _ _); [|apply later_refl].
  destruct (remove_fault _ _ _); simpl; eexists [_; _]; reflexivity.
Qed.

(** [handle_link] on a text without the host marker. *)
Lemma handle_link_invalid (link : string) (user_id : Z) (w : World) :
  contains HOST_MARKER link = false ->
  run_handle_link O link user_id w =
  (match tg_send O w (CReplyText MSG_INVALID_LINK) with
   | None => Ret END
   | Some e => Raise e
   end,
   record_call (CReplyText MSG_INVALID_LINK) w).
Proof.
  intros Hc. unfold run_handle_link, run, handle_link. rewrite Hc. simpl.
  unfold reply_text, effect_call, bind, ret. simpl.
  destruct (tg_send O w (CReplyText MSG_INVALID_LINK)); reflexivity.
Qed.

(** [handle_link] on a text with the host marker, once the status
    message is sent: the try statement, the finally clause, [END]. *)
Lemma handle_link_valid (link : string) (user_id : Z) (w : World) :
  contains HOST_MARKER link = true ->
  tg_send O w (CReplyText MSG_DOWNLOADING) = None ->
  run_handle_link O link user_id w =
  (match fst (guarded_convert O link user_id (try_entry w)) with
   | Ret _ => Ret END
   | Raise e => Raise e
   end,
   world (snd (cleanup O (snd (guarded_convert O link user_id (try_entry w)))))).
Proof.
  intros Hc Hs. unfold run_handle_link, run, handle_link. rewrite Hc. simpl.
  unfold reply_text, effect_call, bind, try_finally, ret. simpl. rewrite Hs.
  fold (try_entry w).
  destruct (guarded_convert O link user_id (try_entry w)) as [r1 s1]. simpl.
  pose proof (cleanup_returns s1) as Hr.
  destruct (cleanup O s1) as [[u|e] s2]; simpl in *; [|discriminate].
  destruct r1; reflexivity.
Qed.

(** The status message is refused: nothing else happens. *)
Lemma handle_link_status_refused (link : string) (user_id : Z) (w : World) (e : exn) :
  contains HOST_MARKER link = true ->
  tg_send O w (CReplyText MSG_DOWNLOADING) = Some e ->
  run_handle_link O link user_id w =
  (Raise e, record_call (CReplyText MSG_DOWNLOADING) w).
Proof.
  intros Hc Hs. unfold run_handle_link, run, handle_link. rewrite Hc. simpl.
  unfold reply_text, effect_call, bind. simpl. rewrite Hs. reflexivity.
Qed.

(** The try statement: which clause handles what. *)
Lemma guarded_convert_run (link : string) (user_id : Z) (s : frame link_locals) :
  guarded_convert O link user_id s =
  match convert_body O link user_id s with
  | (Ret a, s') => (Ret a, s')
  | (Raise e, s') =>
      if isinstance e TelegramError then on_telegram_error O link user_id e s'
      else if isinstance e Exception then on_exception O link user_id e s'
      else (Raise e, s')
  end.
Proof.
  unfold guarded_convert, try_except.
  destruct (convert_body O link user_id s) as [[a|e] s']; [reflexivity|].
  cbn [select_clause].
  destruct (isinstance e TelegramError); [reflexivity|].
  destruct (isinstance e Exception); reflexivity.
Qed.

Lemma on_telegram_error_run (link : string) (user_id : Z) (e : exn) (s : frame link_locals) :
  on_telegram_error O link user_id e s =
  report O link user_id (upload_error_text (exn_msg e))
    (mk_frame (record_call (CLog ERROR ("Telegram upload error: " +:+ exn_msg e)) (world s))
       (locals s)).
Proof.
  unfold on_telegram_error, report, upload_error_text, logger_error, effect_call, bind.
  simpl.
  destruct (contains TOO_BIG_MARKER (exn_msg e)); [reflexivity|].
  destruct (contains TIMED_OUT_MARKER (exn_msg e)); reflexivity.
Qed.

Lemma on_exception_run (link : string) (user_id : Z) (e : exn) (s : frame link_locals) :
  on_exception O link user_id e s =
  report O link user_id (MSG_UNEXPECTED +:+ exn_msg e)
    (mk_frame (record_call (CLog ERROR ("An unexpected error occurred: " +:+ exn_msg e)) (world s))
       (locals s)).
Proof. reflexivity. Qed.

Lemma call_log_to_db_quiet (link : string) (user_id : Z) (f : option string) (st : string)
    (s : frame link_locals) :
  quiet_step (world s)
    (world (snd (call unbound (log_to_db O user_id link f st) s))).
Proof.
  apply (steps_call quiet_step unbound (log_to_db O user_id link f st)
           (log_to_db_quiet O user_id link f st) s).
Qed.

(** The last word of an except clause is its report. *)
Lemma report_chat_texts (link : string) (user_id : Z) (text : string) (s : frame link_locals) :
  chat_texts (trace (world (snd (report O link user_id text s)))) =
  text :: chat_texts (trace (world s)).
Proof.
  unfold report, edit_text, effect_call, bind.
  destruct (tg_send O (world s) (CEditText text)); simpl; [reflexivity|].
  match goal with
  | |- context [call unbound ?f ?s0] =>
      rewrite (quiet_step_chat_texts _ _ (call_log_to_db_quiet link user_id None "error" s0))
  end.
  reflexivity.
Qed.

End Handler.

(** ** What follows the download *)

Lemma try_except_bind {L A B} (m : M L A) (k : A -> M L B) (cs : list (clause L B))
    (s : frame L) :
  try_except (bind m k) cs s =
  match m s with
  | (Ret a, s') => try_except (k a) cs s'
  | (Raise e, s') => try_except (raise e) cs s'
  end.
Proof.
  unfold try_except, bind, raise. destruct (m s) as [[a|e] s']; reflexivity.
Qed.

Lemma keeps_locals_try_except {L A} (body : M L A) (cs : list (clause L A)) :
  keeps_locals body ->
  (forall c h, In (c, h) cs -> forall e, keeps_locals (h e)) ->
  keeps_locals (try_except body cs).
Proof.
  intros Hb Hcs s. unfold try_except. specialize (Hb s).
  destruct (body s) as [[a|e] s']; simpl in *; [exact Hb|].
  destruct (select_clause e cs) as [h|] eqn:Hs; simpl; [|exact Hb].
  destruct (select_clause_in _ _ _ Hs) as (c & Hin & _).
  rewrite (Hcs c h Hin e s'). exact Hb.
Qed.

Lemma quiet_step_later (w w' : World) : quiet_step w w' -> later w w'.
Proof. intros [_ (l & Hl & _)]. exists l. exact Hl. Qed.

Ltac keeps_locals_tac :=
  repeat (intros;
    match goal with
    | |- keeps_locals (match ?x with _ => _ end) => destruct x
    | |- keeps_locals (bind _ _) => eapply keeps_locals_bind
    | |- keeps_locals (try_except _ _) => eapply keeps_locals_try_except
    | |- keeps_locals (call _ _) => eapply keeps_locals_call
    | |- keeps_locals (effect_call _ _) => eapply keeps_locals_effect_call
    | |- keeps_locals (ret _) => eapply keeps_locals_ret
    | |- keeps_locals (raise _) => eapply keeps_locals_raise
    | H : In _ (_ :: _) |- _ => destruct H as [H|H]; [inversion H; subst|]
    | H : In _ [] |- _ => destruct H
    end).

Section AfterDownload.

Variable O : Collaborators.

Lemma send_video_later {L} (path : string) : steps later (@send_video O L path).
Proof. intros s. apply later_record. Qed.

Lemma send_video_keeps_locals {L} (path : string) : keeps_locals (@send_video O L path).
Proof. intros s. reflexivity. Qed.

Lemma log_to_db_later (user_id : Z) (link : string) (f : option string) (st : string) :
  steps later (log_to_db O user_id link f st).
Proof. intros s. apply quiet_step_later, log_to_db_quiet. Qed.

(** The rest of the try statement once the download has answered [p]. *)
Lemma after_download_later (link : string) (user_id : Z) (r : outcome (option string)) :
  steps later
    (try_except
       (p <- (fun s => (r, s)) ;;
        set_locals (mk_link_locals p) ;;
        match p with
        | None => raise (mk_exn Exception DOWNLOAD_FAILED)
        | Some path =>
            edit_text O MSG_UPLOADING ;;
            telegram_file_id <- (open_rb O path ;; send_video O path) ;;
            call unbound (log_to_db O user_id link (Some telegram_file_id) "done") ;;
            edit_text O MSG_COMPLETE
        end)
       [ (TelegramError, on_telegram_error O link user_id);
         (Exception, on_exception O link user_id) ]).
Proof.
  unfold on_telegram_error, on_exception, edit_text, open_rb, logger_error.
  steps_tac; intros;
    first [ apply later_refl | eapply later_trans; eassumption
          | apply later_record | apply send_video_later | apply log_to_db_later
          | intros s; apply later_refl ].
Qed.

Lemma after_download_keeps_locals (link : string) (user_id : Z) (p : option string) :
  keeps_locals
    (try_except
       (match p with
        | None => raise (mk_exn Exception DOWNLOAD_FAILED)
        | Some path =>
            edit_text O MSG_UPLOADING ;;
            telegram_file_id <- (open_rb O path ;; send_video O path) ;;
            call unbound (log_to_db O user_id link (Some telegram_file_id) "done") ;;
            edit_text O MSG_COMPLETE
        end)
       [ (TelegramError, on_telegram_error O link user_id);
         (Exception, on_exception O link user_id) ]).
Proof.
  unfold on_telegram_error, on_exception, edit_text, open_rb, logger_error.
  eapply keeps_locals_try_except; [destruct p|]; keeps_locals_tac;
    intros; apply send_video_keeps_locals.
Qed.

(** The try statement starts with the download, and no later step
    rewrites the record of that call. *)
Lemma guarded_convert_trace (link : string) (user_id : Z) (s : frame link_locals) :
  exists rest,
    trace (world (snd (guarded_convert O link user_id s))) =
    rest ++ CDownload link :: trace (world s).
Proof.
  unfold guarded_convert, convert_body. rewrite try_except_bind.
  unfold gdown_call at 1.
  destruct (gdown_download O (world s) link) as [r fs].
  set (s1 := mk_frame (mk_world fs (database (world s)) (CDownload link :: trace (world s)))
               (locals s)).
  pose proof (after_download_later link user_id r s1) as Hl.
  rewrite try_except_bind in Hl. simpl in Hl.
  destruct r as [p|e]; exact Hl.
Qed.

(** [output_path] at the end of the try statement is what the download
    returned; it is [None] when the download raised. *)
Lemma guarded_convert_output_path (link : string) (user_id : Z) (s : frame link_locals) :
  output_path (locals s) = None ->
  output_path (locals (snd (guarded_convert O link user_id s))) =
  match fst (gdown_download O (world s) link) with
  | Ret p => p
  | Raise _ => None
  end.
Proof.
  intros Hnone.
  unfold guarded_convert, convert_body. rewrite try_except_bind.
  unfold gdown_call at 1.
  destruct (gdown_download O (world s) link) as [[p|e] fs]; simpl fst.
  - rewrite try_except_bind. unfold set_locals at 1.
    rewrite (after_download_keeps_locals link user_id p). reflexivity.
  - match goal with
    | |- context [try_except (raise e) ?cs ?s1] =>
        assert (Hk : keeps_locals (try_except (@raise link_locals unit e) cs))
    end.
    { unfold on_telegram_error, on_exception, edit_text, logger_error.
      keeps_locals_tac. }
    rewrite Hk. exact Hnone.
Qed.

End AfterDownload.

(** * The claims *)

(** ** Validation *)

(** C3. For every submitted text that does not contain
    "drive.google.com", [handle_link] emits the warning message, which
    is the only call it makes (no download, no upload, no ledger
    operation), leaves the ledger and the disk as they were and, the
    warning sent, returns [END]. *)
Theorem handle_link_rejects_other_hosts (O : Collaborators) (link : string)
    (user_id : Z) (w : World) :
  contains HOST_MARKER link = false ->
  trace (snd (run_handle_link O link user_id w)) = CReplyText MSG_INVALID_LINK :: trace w /\
  ledger (database (snd (run_handle_link O link user_id w))) = ledger (database w) /\
  database (snd (run_handle_link O link user_id w)) = database w /\
  files (snd (run_handle_link O link user_id w)) = files w /\
  (tg_send O w (CReplyText MSG_INVALID_LINK) = None ->
   fst (run_handle_link O link user_id w) = Ret END).
Proof.
  intros Hc. rewrite (handle_link_invalid O link user_id w Hc). simpl.
  repeat split. intros Hs. rewrite Hs. reflexivity.
Qed.

Lemma handle_link_rejects_other_hosts_witness :
  contains HOST_MARKER "https://example.com/video.mp4" = false /\
  trace (snd (run_handle_link nominal "https://example.com/video.mp4" 42 w_ready)) =
    [CReplyText MSG_INVALID_LINK] /\
  ledger (database (snd (run_handle_link nominal "https://example.com/video.mp4" 42 w_ready))) = [] /\
  fst (run_handle_link nominal "https://example.com/video.mp4" 42 w_ready) = Ret END.
Proof.
  pose proof (handle_link_rejects_other_hosts nominal "https://example.com/video.mp4" 42
                w_ready eq_refl) as (Ht & Hl & _ & _ & Hr).
  split; [reflexivity|]. split; [exact Ht|]. split; [exact Hl|]. exact (Hr eq_refl).
Defined.

(** C10. Validation is a substring test: whatever stands before and
    after "drive.google.com" in the submitted text, URL or not, the
    text passes validation and, the status message sent, is handed
    unchanged to the download collaborator as the next call. *)
Theorem validation_is_a_substring_test (O : Collaborators) (user_id : Z) (w : World)
    (pre post : string) :
  tg_send O w (CReplyText MSG_DOWNLOADING) = None ->
  contains HOST_MARKER (pre +:+ HOST_MARKER +:+ post) = true /\
  exists rest,
    trace (snd (run_handle_link O (pre +:+ HOST_MARKER +:+ post) user_id w)) =
    rest ++ CDownload (pre +:+ HOST_MARKER +:+ post) :: CReplyText MSG_DOWNLOADING :: trace w.
Proof.
  intros Hs. pose proof (contains_app HOST_MARKER pre post) as Hc.
  split; [exact Hc|].
  rewrite (handle_link_valid O _ user_id w Hc Hs). cbn [snd].
  destruct (guarded_convert_trace O (pre +:+ HOST_MARKER +:+ post) user_id (try_entry w))
    as [rest Hrest].
  destruct (cleanup_later O (snd (guarded_convert O (pre +:+ HOST_MARKER +:+ post) user_id
                                    (try_entry w)))) as [l Hl].
  exists (l ++ rest). rewrite Hl, Hrest. simpl. rewrite <- app_assoc. reflexivity.
Qed.

Lemma validation_is_a_substring_test_witness :
  tg_send nominal w_ready (CReplyText MSG_DOWNLOADING) = None /\
  contains HOST_MARKER ("not a url, but drive.google.com is in it") = true /\
  exists rest,
    trace (snd (run_handle_link nominal "not a url, but drive.google.com is in it" 42 w_ready)) =
    rest ++ [CDownload "not a url, but drive.google.com is in it"; CReplyText MSG_DOWNLOADING].
Proof.
  split; [reflexivity|].
  exact (validation_is_a_substring_test nominal 42 w_ready "not a url, but " " is in it" eq_refl).
Defined.

(** ** Classification of upload errors *)

(** The message after a [TelegramError] in the try statement. *)
Lemma telegram_error_last_text (O : Collaborators) (link : string) (user_id : Z)
    (w : World) (e : exn) :
  contains HOST_MARKER link = true ->
  tg_send O w (CReplyText MSG_DOWNLOADING) = None ->
  fst (convert_body O link user_id (try_entry w)) = Raise e ->
  exn_cls e = TelegramError ->
  last_text (trace (snd (run_handle_link O link user_id w))) =
  Some (upload_error_text (exn_msg e)).
Proof.
  intros Hc Hs Hb He.
  rewrite (handle_link_valid O link user_id w Hc Hs). cbn [snd].
  unfold last_text. rewrite cleanup_chat_texts, guarded_convert_run.
  destruct (convert_body O link user_id (try_entry w)) as [[a|e'] s1]; simpl in Hb;
    [discriminate|]. injection Hb as ->.
  apply isinstance_TelegramError in He. rewrite He.
  rewrite on_telegram_error_run, report_chat_texts. reflexivity.
Qed.

(** C2. For every platform error raised in the try statement
    (the upload's among them): when its message contains "File is too
    big" the message to the user is the fixed too-large (max 2GB) text;
    else when it contains "Timed out", the fixed timeout text;
    otherwise the upload-error template followed by the raw message.
    That message is the last one the handler sends. *)
Theorem upload_error_is_classified (O : Collaborators) (link : string) (user_id : Z)
    (w : World) (e : exn) :
  contains HOST_MARKER link = true ->
  tg_send O w (CReplyText MSG_DOWNLOADING) = None ->
  fst (convert_body O link user_id (try_entry w)) = Raise e ->
  exn_cls e = TelegramError ->
  (contains TOO_BIG_MARKER (exn_msg e) = true ->
   last_text (trace (snd (run_handle_link O link user_id w))) = Some MSG_TOO_BIG) /\
  (contains TOO_BIG_MARKER (exn_msg e) = false ->
   contains TIMED_OUT_MARKER (exn_msg e) = true ->
   last_text (trace (snd (run_handle_link O link user_id w))) = Some MSG_TIMED_OUT) /\
  (contains TOO_BIG_MARKER (exn_msg e) = false ->
   contains TIMED_OUT_MARKER (exn_msg e) = false ->
   last_text (trace (snd (run_handle_link O link user_id w))) =
   Some (MSG_UPLOAD_ERROR +:+ exn_msg e)).
Proof.
  intros Hc Hs Hb He.
  rewrite (telegram_error_last_text O link user_id w e Hc Hs Hb He).
  unfold upload_error_text. repeat split.
  - intros ->. reflexivity.
  - intros -> ->. reflexivity.
  - intros -> ->. reflexivity.
Qed.

Lemma upload_error_is_classified_witness :
  contains HOST_MARKER DRIVE_LINK = true /\
  fst (convert_body (upload_refused "File is too big: 2147483648 bytes") DRIVE_LINK 42
         (try_entry w_ready)) =
    Raise (mk_exn TelegramError "File is too big: 2147483648 bytes") /\
  last_text (trace (snd (run_handle_link (upload_refused "File is too big: 2147483648 bytes")
                           DRIVE_LINK 42 w_ready))) = Some MSG_TOO_BIG.
Proof.
  split; [reflexivity|]. split; [vm_compute; reflexivity|].
  refine (proj1 (upload_error_is_classified
                   (upload_refused "File is too big: 2147483648 bytes") DRIVE_LINK 42 w_ready
                   (mk_exn TelegramError "File is too big: 2147483648 bytes")
                   eq_refl eq_refl _ eq_refl) eq_refl).
  vm_compute; reflexivity.
Defined.

(** C9. Precedence: a platform error whose message contains both "File
    is too big" and "Timed out" is answered with the too-large (max
    2GB) text, not with the timeout text. *)
Theorem oversize_wins_over_timeout (O : Collaborators) (link : string) (user_id : Z)
    (w : World) (e : exn) :
  contains HOST_MARKER link = true ->
  tg_send O w (CReplyText MSG_DOWNLOADING) = None ->
  fst (convert_body O link user_id (try_entry w)) = Raise e ->
  exn_cls e = TelegramError ->
  contains TOO_BIG_MARKER (exn_msg e) = true ->
  contains TIMED_OUT_MARKER (exn_msg e) = true ->
  last_text (trace (snd (run_handle_link O link user_id w))) = Some MSG_TOO_BIG /\
  last_text (trace (snd (run_handle_link O link user_id w))) <> Some MSG_TIMED_OUT.
Proof.
  intros Hc Hs Hb He Hbig _.
  rewrite (telegram_error_last_text O link user_id w e Hc Hs Hb He).
  unfold upload_error_text. rewrite Hbig. split; [reflexivity | discriminate].
Qed.

Lemma oversize_wins_over_timeout_witness :
  contains TOO_BIG_MARKER "Timed out: File is too big" = true /\
  contains TIMED_OUT_MARKER "Timed out: File is too big" = true /\
  last_text (trace (snd (run_handle_link (upload_refused "Timed out: File is too big")
                           DRIVE_LINK 42 w_ready))) = Some MSG_TOO_BIG.
Proof.
  split; [reflexivity|]. split; [reflexivity|].
  refine (proj1 (oversize_wins_over_timeout
                   (upload_refused "Timed out: File is too big") DRIVE_LINK 42 w_ready
                   (mk_exn TelegramError "Timed out: File is too big")
                   eq_refl eq_refl _ eq_refl eq_refl eq_refl)).
  vm_compute; reflexivity.
Defined.

(** ** Cleanup *)

(** C5. Whatever the try statement of [handle_link] did (success, a
    platform error, any other error, and whether or not its except
    clause raised in turn), the finally clause runs on the state it
    left.  When the download returned a path that exists on disk,
    [os.remove] is called on it: the file is gone when the call goes
    through, and when it fails the failure is only logged, the disk and
    the database staying as they were; when there is no such file
    nothing is done.  In every case the messages sent to the user are
    the ones the try statement left, and so is the database unless the
    path removed is the database file itself; the outcome of the
    handler is the one of the try statement: the finally clause raises
    nothing. *)
Theorem cleanup_always_runs (O : Collaborators) (link : string) (user_id : Z)
    (w : World) (r1 : outcome unit) (s1 : frame link_locals) :
  contains HOST_MARKER link = true ->
  tg_send O w (CReplyText MSG_DOWNLOADING) = None ->
  guarded_convert O link user_id (try_entry w) = (r1, s1) ->
  fst (run_handle_link O link user_id w) =
    match r1 with Ret _ => Ret END | Raise e => Raise e end /\
  output_path (locals s1) =
    match fst (gdown_download O (world (try_entry w)) link) with
    | Ret p => p
    | Raise _ => None
    end /\
  chat_texts (trace (snd (run_handle_link O link user_id w))) = chat_texts (trace (world s1)) /\
  (output_path (locals s1) <> Some DB_FILE ->
   database (snd (run_handle_link O link user_id w)) = database (world s1)) /\
  (forall path,
     output_path (locals s1) = Some path ->
     path_exists (world s1) path = true ->
     match remove_fault O (world s1) path with
     | None =>
         path_exists (snd (run_handle_link O link user_id w)) path = false /\
         trace (snd (run_handle_link O link user_id w)) =
           CLog INFO ("Successfully deleted local file: " +:+ path)
           :: CRemove path :: trace (world s1)
     | Some m =>
         files (snd (run_handle_link O link user_id w)) = files (world s1) /\
         database (snd (run_handle_link O link user_id w)) = database (world s1) /\
         trace (snd (run_handle_link O link user_id w)) =
           CLog ERROR ("Error deleting file " +:+ path +:+ ": " +:+ m)
           :: CRemove path :: trace (world s1)
     end) /\
  ((forall path, output_path (locals s1) = Some path ->
                 path_exists (world s1) path = false) ->
   trace (snd (run_handle_link O link user_id w)) = trace (world s1) /\
   files (snd (run_handle_link O link user_id w)) = files (world s1) /\
   database (snd (run_handle_link O link user_id w)) = database (world s1)).
Proof.
  intros Hc Hs Hg.
  rewrite (handle_link_valid O link user_id w Hc Hs). cbn [fst snd].
  pose proof (guarded_convert_output_path O link user_id (try_entry w) eq_refl) as Hp.
  rewrite Hg in *. cbn [fst snd] in *.
  split; [reflexivity|]. split; [exact Hp|].
  split; [apply cleanup_chat_texts|]. split; [intros _; apply cleanup_database|].
  split.
  - intros path Hpath Hex. rewrite cleanup_run, Hpath, Hex.
    destruct (remove_fault O (world s1) path); cbn [snd world files trace database].
    + repeat split; reflexivity.
    + split; [apply path_exists_removed | reflexivity].
  - intros Hnone. rewrite cleanup_run.
    destruct (output_path (locals s1)) as [path|]; [|repeat split; reflexivity].
    rewrite (Hnone path eq_refl). repeat split; reflexivity.
Qed.

Lemma cleanup_always_runs_witness :
  chat_texts (trace (snd (run_handle_link deletion_denied DRIVE_LINK 42 w_ready))) =
    [MSG_COMPLETE; MSG_UPLOADING; MSG_DOWNLOADING] /\
  fst (run_handle_link deletion_denied DRIVE_LINK 42 w_ready) = Ret END /\
  path_exists (snd (run_handle_link deletion_denied DRIVE_LINK 42 w_ready)) "video.mp4" = true.
Proof.
  destruct (guarded_convert deletion_denied DRIVE_LINK 42 (try_entry w_ready))
    as [r1 s1] eqn:Hg.
  pose proof (cleanup_always_runs deletion_denied DRIVE_LINK 42 w_ready r1 s1
                eq_refl eq_refl Hg) as (Hr & _ & Hchat & _ & _ & _).
  vm_compute in Hg. injection Hg as <- <-.
  split; [exact Hchat|]. split; [exact Hr|]. vm_compute. reflexivity.
Defined.

(** ** The ledger *)

(** C7 (what the code does where the claim fails).  When
    [sqlite3.connect] raises, [log_to_db] logs the failure and then
    raises [UnboundLocalError] from its finally clause, where [conn]
    was never assigned; nothing is written. *)
Theorem log_to_db_raises_when_connect_fails (O : Collaborators) (user_id : Z)
    (link : string) (f : option string) (st : string) (w : World) (m : string) :
  sql_fault O w SqlConnect = Some m ->
  run_log_to_db O user_id link f st w =
  (Raise (mk_exn UnboundLocalError
            "cannot access local variable 'conn' where it is not associated with a value"),
   mk_world (files w) (database w)
     (CLog ERROR ("Failed to log to database: " +:+ m) :: CSql SqlConnect :: trace w)).
Proof.
  intros Hc. unfold_db. cbn. rewrite Hc. cbn. reflexivity.
Qed.

Lemma log_to_db_raises_when_connect_fails_witness :
  sql_fault db_unreachable w_ready SqlConnect = Some "unable to open database file" /\
  fst (run_log_to_db db_unreachable 42 DRIVE_LINK None "error" w_ready) =
  Raise (mk_exn UnboundLocalError
           "cannot access local variable 'conn' where it is not associated with a value").
Proof.
  split; [reflexivity|].
  rewrite (log_to_db_raises_when_connect_fails db_unreachable 42 DRIVE_LINK None "error"
             w_ready "unable to open database file" eq_refl).
  reflexivity.
Defined.

(** Every other failure of the engine is logged and swallowed. *)
Lemma log_to_db_returns_once_connected (O : Collaborators) (user_id : Z)
    (link : string) (f : option string) (st : string) (w : World) :
  sql_fault O w SqlConnect = None ->
  fst (run_log_to_db O user_id link f st w) = Ret tt.
Proof.
  intros Hc. unfold run_log_to_db, run.
  pose proof (log_to_db_connected O user_id link f st w Hc) as H.
  destruct (log_to_db O user_id link f st (mk_frame w unbound)) as [r s]. exact H.
Qed.

(** C8. Initializing the ledger twice in sequence: when the first call
    has connected and run its CREATE TABLE IF NOT EXISTS, and the
    second call connects, the second call returns without an error and
    leaves the database exactly as the first call left it, with a
    [videos] table in it and no table name twice if none was before. *)
Theorem setup_database_twice (O : Collaborators) (w : World) :
  sql_fault O w SqlConnect = None ->
  sql_fault O (record_call (CSql SqlConnect) w) (SqlExecute CreateVideos) = None ->
  sql_fault O (snd (run_setup_database O w)) SqlConnect = None ->
  fst (run_setup_database O w) = Ret tt /\
  fst (run_setup_database O (snd (run_setup_database O w))) = Ret tt /\
  database (snd (run_setup_database O (snd (run_setup_database O w)))) =
    database (snd (run_setup_database O w)) /\
  has_table "videos" (database (snd (run_setup_database O (snd (run_setup_database O w))))) = true /\
  (List.NoDup (table_names (database w)) ->
   List.NoDup (table_names (database (snd (run_setup_database O (snd (run_setup_database O w))))))).
Proof.
  intros Hc1 He1 Hc2.
  pose proof (setup_database_created O w Hc1 He1) as Hdb1.
  destruct (setup_database_connected O w Hc1) as [Hr1 _].
  destruct (setup_database_connected O _ Hc2) as [Hr2 Hdb2].
  assert (Hsame : database (snd (run_setup_database O (snd (run_setup_database O w)))) =
                  database (snd (run_setup_database O w))).
  { destruct Hdb2 as [->| ->]; [reflexivity|].
    rewrite Hdb1. apply create_videos_idempotent. }
  repeat split; try assumption.
  - rewrite Hsame, Hdb1. apply create_videos_has_table.
  - intros Hnd. rewrite Hsame, Hdb1. apply create_videos_NoDup, Hnd.
Qed.

Lemma setup_database_twice_witness :
  fst (run_setup_database nominal (snd (run_setup_database nominal w_fresh))) = Ret tt /\
  table_names (database (snd (run_setup_database nominal (snd (run_setup_database nominal w_fresh))))) =
    ["videos"].
Proof.
  pose proof (setup_database_twice nominal w_fresh eq_refl eq_refl eq_refl)
    as (_ & Hr & Hdb & _).
  split; [exact Hr|]. rewrite Hdb. vm_compute. reflexivity.
Defined.

(** ** The success path *)

#[local] Arguments cleanup : simpl never.

Lemma path_exists_on_disk (w : World) (p : string) :
  p <> EmptyString -> p ∈ files w -> path_exists w p = true.
Proof.
  intros Hne Hin. unfold path_exists. apply andb_true_intro. split.
  - apply negb_true_iff, String.eqb_neq, Hne.
  - apply bool_decide_eq_true, Hin.
Qed.

(** C1, as amended.  When the download returns a path that is on disk
    and is not the database file, the status edit, the opening of the
    file and the upload go through, the storage engine accepts the
    insert, the confirmation edit goes through and the deletion does
    not fail, [handle_link] returns [END] having written exactly one
    ledger record, with status "done" and the file reference the
    platform gave, and the local file no longer exists. *)
Theorem handle_link_success (O : Collaborators) (link : string) (user_id : Z) (w : World)
    (path fid : string) (fs : gset string) :
  contains HOST_MARKER link = true ->
  tg_send O w (CReplyText MSG_DOWNLOADING) = None ->
  gdown_download O (record_call (CReplyText MSG_DOWNLOADING) w) link = (Ret (Some path), fs) ->
  path <> EmptyString -> path ∈ fs -> path <> DB_FILE ->
  (forall w', tg_send O w' (CEditText MSG_UPLOADING) = None) ->
  (forall w', open_fault O w' path = None) ->
  (forall w', reply_video O w' path = Ret fid) ->
  (forall w' op, sql_fault O w' op = None) ->
  has_table "videos" (database w) = true ->
  (forall w', tg_send O w' (CEditText MSG_COMPLETE) = None) ->
  (forall w', remove_fault O w' path = None) ->
  fst (run_handle_link O link user_id w) = Ret END /\
  (exists row,
     ledger (database (snd (run_handle_link O link user_id w))) = ledger (database w) ++ [row] /\
     row_status row = "done" /\ row_telegram_file row = Some fid /\
     row_original_link row = link /\ row_user_id row = str_of_int user_id) /\
  path_exists (snd (run_handle_link O link user_id w)) path = false /\
  last_text (trace (snd (run_handle_link O link user_id w))) = Some MSG_COMPLETE.
Proof.
  intros Hc Hs Hdl Hne Hin Hdb Hup Hopen Hvid Hsql Htab Hdone Hrm.
  destruct (has_table_find_table _ _ Htab) as [t Ht].
  rewrite (handle_link_valid O link user_id w Hc Hs). cbn [fst snd].
  rewrite guarded_convert_run.
  unfold convert_body, gdown_call, edit_text, open_rb, send_video, effect_call,
    set_locals, call, bind, try_entry.
  cbn. rewrite Hdl. cbn. rewrite Hup. cbn.
  rewrite path_exists_on_disk by assumption. rewrite Hopen. cbn. rewrite Hvid. cbn.
  erewrite (log_to_db_ok O user_id link (Some fid) "done" _ t Hsql) by exact Ht. cbn.
  rewrite Hdone. cbn.
  rewrite !cleanup_run. cbn.
  rewrite path_exists_on_disk by assumption. rewrite Hrm. cbn.
  split; [reflexivity|]. split; [|split; [apply path_exists_removed | reflexivity]].
  eexists. split; [apply (ledger_append_rows _ _ t Ht)|]. repeat split; reflexivity.
Qed.

Lemma handle_link_success_witness :
  fst (run_handle_link nominal DRIVE_LINK 42 w_ready) = Ret END /\
  (exists row,
     ledger (database (snd (run_handle_link nominal DRIVE_LINK 42 w_ready))) = [row] /\
     row_status row = "done" /\ row_telegram_file row = Some "BAACAgQAAxkBAAIB" /\
     row_original_link row = DRIVE_LINK /\ row_user_id row = "42") /\
  path_exists (snd (run_handle_link nominal DRIVE_LINK 42 w_ready)) "video.mp4" = false /\
  last_text (trace (snd (run_handle_link nominal DRIVE_LINK 42 w_ready))) = Some MSG_COMPLETE.
Proof.
  refine (handle_link_success nominal DRIVE_LINK 42 w_ready "video.mp4" "BAACAgQAAxkBAAIB"
            (∅ ∪ {["video.mp4"]}) eq_refl eq_refl eq_refl _ _ _
            (fun _ => eq_refl) (fun _ => eq_refl) (fun _ => eq_refl)
            (fun _ _ => eq_refl) eq_refl (fun _ => eq_refl) (fun _ => eq_refl)).
  - discriminate.
  - apply elem_of_union_r, elem_of_singleton. reflexivity.
  - discriminate.
Defined.

(** C1 as stated fails: the download returns a path, the upload
    succeeds and the record is written, but [os.remove] is refused; the
    handler logs that and returns with the file still on disk. *)
Lemma handle_link_success_counterexample :
  (fst (gdown_download deletion_denied (record_call (CReplyText MSG_DOWNLOADING) w_ready)
          DRIVE_LINK) = Ret (Some "video.mp4") /\
   (forall w', reply_video deletion_denied w' "video.mp4" = Ret "BAACAgQAAxkBAAIB") /\
   fst (run_handle_link deletion_denied DRIVE_LINK 42 w_ready) = Ret END) /\
  ~ ((exists row,
        ledger (database (snd (run_handle_link deletion_denied DRIVE_LINK 42 w_ready))) =
          ledger (database w_ready) ++ [row] /\
        row_status row = "done" /\ row_telegram_file row <> None) /\
     path_exists (snd (run_handle_link deletion_denied DRIVE_LINK 42 w_ready)) "video.mp4" = false).
Proof.
  split.
  - split; [reflexivity|]. split; [intros w'; reflexivity | vm_compute; reflexivity].
  - intros [_ Hgone]. vm_compute in Hgone. discriminate Hgone.
Qed.

(** A second way out of "exactly one record": the confirmation edit is
    inside the try statement, after the append, so when the platform
    refuses it the except clause appends an "error" record for the same
    attempt. *)
Lemma confirmation_lost_two_records :
  map row_status (ledger (database (snd (run_handle_link confirmation_lost DRIVE_LINK 42 w_ready)))) =
    ["done"; "error"] /\
  fst (run_handle_link confirmation_lost DRIVE_LINK 42 w_ready) = Ret END.
Proof. split; vm_compute; reflexivity. Qed.

(** ** The download returns nothing *)

Lemma report_ledger (O : Collaborators) (link : string) (user_id : Z) (text : string)
    (s : frame link_locals) :
  let w' := world (snd (report O link user_id text s)) in
  ledger (database w') = ledger (database (world s)) \/
  exists row,
    ledger (database w') = ledger (database (world s)) ++ [row] /\
    row_user_id row = str_of_int user_id /\ row_original_link row = link /\
    row_telegram_file row = None /\ row_status row = "error".
Proof.
  unfold report, edit_text, effect_call, bind, call.
  destruct (tg_send O (world s) (CEditText text)); cbn [fst snd world]; [left; reflexivity|].
  pose proof (log_to_db_ledger O user_id link None "error"
                (record_call (CEditText text) (world s))) as H.
  destruct (log_to_db O user_id link None "error" _) as [r s']. exact H.
Qed.

Lemma report_returns (O : Collaborators) (link : string) (user_id : Z) (text : string)
    (s : frame link_locals) :
  tg_send O (world s) (CEditText text) = None ->
  sql_fault O (record_call (CEditText text) (world s)) SqlConnect = None ->
  fst (report O link user_id text s) = Ret tt.
Proof.
  intros He Hc. unfold report, edit_text, effect_call, bind, call. rewrite He.
  pose proof (log_to_db_connected O user_id link None "error" _ Hc) as H.
  destruct (log_to_db O user_id link None "error" _) as [r s']. exact H.
Qed.

(** The try body when the download returns [None]. *)
Lemma convert_body_no_artifact (O : Collaborators) (link : string) (user_id : Z)
    (w : World) (fs : gset string) :
  gdown_download O (record_call (CReplyText MSG_DOWNLOADING) w) link = (Ret None, fs) ->
  convert_body O link user_id (try_entry w) =
  (Raise (mk_exn Exception DOWNLOAD_FAILED),
   mk_frame (mk_world fs (database w)
               (CDownload link :: CReplyText MSG_DOWNLOADING :: trace w))
     (mk_link_locals None)).
Proof.
  intros Hdl. unfold convert_body, gdown_call, set_locals, bind, raise, try_entry.
  cbn. rewrite Hdl. reflexivity.
Qed.

(** C4, as amended.  When the download returns [None], the last
    message to the user is the unexpected-error template carrying
    "Download failed. File might be private or deleted.", and at most
    one ledger record is written, with status "error" and a null file
    reference; exactly one is written, and [END] returned, when the
    edit carrying that message goes through and the storage engine
    accepts the insert. *)
Theorem download_failure_is_reported (O : Collaborators) (link : string) (user_id : Z)
    (w : World) (fs : gset string) :
  contains HOST_MARKER link = true ->
  tg_send O w (CReplyText MSG_DOWNLOADING) = None ->
  gdown_download O (record_call (CReplyText MSG_DOWNLOADING) w) link = (Ret None, fs) ->
  last_text (trace (snd (run_handle_link O link user_id w))) =
    Some (MSG_UNEXPECTED +:+ DOWNLOAD_FAILED) /\
  (ledger (database (snd (run_handle_link O link user_id w))) = ledger (database w) \/
   exists row,
     ledger (database (snd (run_handle_link O link user_id w))) = ledger (database w) ++ [row] /\
     row_user_id row = str_of_int user_id /\ row_original_link row = link /\
     row_telegram_file row = None /\ row_status row = "error") /\
  ((forall w', tg_send O w' (CEditText (MSG_UNEXPECTED +:+ DOWNLOAD_FAILED)) = None) ->
   (forall w' op, sql_fault O w' op = None) ->
   has_table "videos" (database w) = true ->
   fst (run_handle_link O link user_id w) = Ret END /\
   exists row,
     ledger (database (snd (run_handle_link O link user_id w))) = ledger (database w) ++ [row] /\
     row_user_id row = str_of_int user_id /\ row_original_link row = link /\
     row_telegram_file row = None /\ row_status row = "error").
Proof.
  intros Hc Hs Hdl.
  rewrite (handle_link_valid O link user_id w Hc Hs). cbn [fst snd].
  rewrite guarded_convert_run, (convert_body_no_artifact O link user_id w fs Hdl).
  cbn [isinstance issubclass exn_cls exn_class_eqb negb]. rewrite on_exception_run.
  cbn [exn_msg world locals].
  split; [|split].
  - unfold last_text. rewrite cleanup_chat_texts, report_chat_texts. reflexivity.
  - rewrite cleanup_database. apply report_ledger.
  - intros Hedit Hsql Htab. destruct (has_table_find_table _ _ Htab) as [t Ht].
    rewrite cleanup_database.
    unfold report, edit_text, effect_call, bind, call. rewrite Hedit.
    erewrite (log_to_db_ok O user_id link None "error" _ t Hsql) by exact Ht.
    cbn [fst snd world database].
    split; [reflexivity|]. eexists.
    split; [apply (ledger_append_rows _ _ t Ht)|]. repeat split; reflexivity.
Qed.

Lemma download_failure_is_reported_witness :
  last_text (trace (snd (run_handle_link private_file DRIVE_LINK 42 w_ready))) =
    Some "❌ An unexpected error occurred: Download failed. File might be private or deleted." /\
  fst (run_handle_link private_file DRIVE_LINK 42 w_ready) = Ret END /\
  exists row,
    ledger (database (snd (run_handle_link private_file DRIVE_LINK 42 w_ready))) = [row] /\
    row_user_id row = "42" /\ row_original_link row = DRIVE_LINK /\
    row_telegram_file row = None /\ row_status row = "error".
Proof.
  pose proof (download_failure_is_reported private_file DRIVE_LINK 42 w_ready ∅
                eq_refl eq_refl eq_refl) as (Hlast & _ & Hone).
  split; [exact Hlast|].
  exact (Hone (fun _ => eq_refl) (fun _ _ => eq_refl) eq_refl).
Defined.

(** C4 as stated fails: the download returns [None] and the user is
    told so, but the database is locked by another writer; [log_to_db]
    logs the failure of the INSERT and no record is written. *)
Lemma download_failure_counterexample :
  (fst (gdown_download private_file_db_locked
          (record_call (CReplyText MSG_DOWNLOADING) w_ready) DRIVE_LINK) = Ret None /\
   fst (run_handle_link private_file_db_locked DRIVE_LINK 42 w_ready) = Ret END /\
   last_text (trace (snd (run_handle_link private_file_db_locked DRIVE_LINK 42 w_ready))) =
     Some (MSG_UNEXPECTED +:+ DOWNLOAD_FAILED)) /\
  ~ (exists row,
       ledger (database (snd (run_handle_link private_file_db_locked DRIVE_LINK 42 w_ready))) =
         ledger (database w_ready) ++ [row] /\
       row_status row = "error" /\ row_telegram_file row = None).
Proof.
  split.
  - repeat split; vm_compute; reflexivity.
  - intros (row & Hrow & _). vm_compute in Hrow. discriminate Hrow.
Qed.

(** ** Errors that leave the handler *)

Lemma error_report_upload (m : string) : error_report (upload_error_text m).
Proof. left. exists m. reflexivity. Qed.

Lemma error_report_unexpected (m : string) : error_report (MSG_UNEXPECTED +:+ m).
Proof. right. exists m. reflexivity. Qed.

(** When the collaborators raise nothing outside [Exception], neither
    does the try body. *)
Lemma convert_body_raises (O : Collaborators) (link : string) (user_id : Z) :
  raises_exceptions_only O ->
  raises_only (fun e => isinstance e Exception = true) (convert_body O link user_id).
Proof.
  intros (Hsend & Hdl & Hopen & Hvid).
  unfold convert_body, edit_text, open_rb.
  raises_tac; intros;
    first [ reflexivity | apply log_to_db_raises | eapply Hsend; eassumption | idtac ].
  - intros s0 e s' H. unfold gdown_call in H.
    destruct (gdown_download O (world s0) link) as [r fs] eqn:Hg.
    injection H as -> _. apply (Hdl (world s0) link). rewrite Hg. reflexivity.
  - match goal with
    | H : (if ?b then _ else _) = Some _ |- _ => destruct b
    end.
    + eapply Hopen; eassumption.
    + match goal with H : Some _ = Some _ |- _ => injection H as <- end. reflexivity.
  - intros s0 e s' H. unfold send_video in H. injection H as H _.
    eapply Hvid; eassumption.
Qed.

(** C6, as amended.  Every error that is an instance of [Exception]
    and is raised inside the try body of [handle_link], by whichever
    collaborator or by the ledger append of the success path, is caught
    by an except clause, and the finally clause raises nothing:
    [handle_link] returns [END] whenever the calls that stand outside
    that protection go through, namely the warning or status reply
    before the try statement and, inside the except clauses, the edit
    that reports the error and the connection of the append that
    follows it. *)
Theorem handle_link_returns_END (O : Collaborators) (link : string) (user_id : Z)
    (w : World) :
  raises_exceptions_only O ->
  (forall w' t, tg_send O w' (CReplyText t) = None) ->
  (forall w' t, error_report t -> tg_send O w' (CEditText t) = None) ->
  (forall w' t, error_report t ->
     sql_fault O (record_call (CEditText t) w') SqlConnect = None) ->
  fst (run_handle_link O link user_id w) = Ret END.
Proof.
  intros Hexn Hreply Hreport Hconn.
  destruct (contains HOST_MARKER link) eqn:Hc.
  - rewrite (handle_link_valid O link user_id w Hc (Hreply _ _)). cbn [fst].
    rewrite guarded_convert_run.
    destruct (convert_body O link user_id (try_entry w)) as [[a|e] s1] eqn:Hbody;
      [reflexivity|].
    rewrite (convert_body_raises O link user_id Hexn _ _ _ Hbody).
    destruct (isinstance e TelegramError).
    + rewrite on_telegram_error_run, report_returns;
        auto using error_report_upload.
    + rewrite on_exception_run, report_returns;
        auto using error_report_unexpected.
  - rewrite (handle_link_invalid O link user_id w Hc). cbn [fst].
    rewrite Hreply. reflexivity.
Qed.

Lemma handle_link_returns_END_witness :
  sql_fault db_unreachable_after_upload
    (record_call (CReplyVideo "video.mp4") w_ready) SqlConnect =
    Some "unable to open database file" /\
  fst (run_handle_link db_unreachable_after_upload DRIVE_LINK 42 w_ready) = Ret END /\
  map row_status
    (ledger (database (snd (run_handle_link db_unreachable_after_upload DRIVE_LINK 42 w_ready)))) =
    ["error"].
Proof.
  split; [reflexivity|]. split; [|vm_compute; reflexivity].
  apply (handle_link_returns_END db_unreachable_after_upload DRIVE_LINK 42 w_ready).
  - repeat split; intros ? ? ? H; discriminate H.
  - intros; reflexivity.
  - intros; reflexivity.
  - intros; reflexivity.
Defined.

(** C6 as stated fails: the network goes down during the upload.  The
    upload raises a [TelegramError], the except clause catches it and
    tries to edit the status message, that edit raises in turn, and
    the second error leaves [handle_link] once the finally clause has
    removed the file: no [END] is returned. *)
Lemma handle_link_error_escapes :
  run_handle_link network_lost_at_upload DRIVE_LINK 42 w_ready =
  (Raise (mk_exn TelegramError "Timed out"),
   mk_world ∅ (database w_ready)
     [ CLog INFO "Successfully deleted local file: video.mp4";
       CRemove "video.mp4";
       CEditText MSG_TIMED_OUT;
       CLog ERROR "Telegram upload error: Timed out";
       CReplyVideo "video.mp4";
       COpen "video.mp4";
       CEditText MSG_UPLOADING;
       CDownload DRIVE_LINK;
       CReplyText MSG_DOWNLOADING ]) /\
  fst (run_handle_link network_lost_at_upload DRIVE_LINK 42 w_ready) <> Ret END.
Proof.
  split; [vm_compute; reflexivity|]. vm_compute. discriminate.
Qed.

(** An error outside [Exception] is caught by neither except clause:
    a cancellation during the upload leaves [handle_link] at once,
    unreported and unrecorded; only the finally clause runs. *)
Lemma cancellation_leaves_the_handler :
  (run_handle_link cancelled_at_upload DRIVE_LINK 42 w_ready =
   (Raise (mk_exn CancelledError EmptyString),
   mk_world ∅ (database w_ready)
     [ CLog INFO "Successfully deleted local file: video.mp4";
       CRemove "video.mp4";
       CReplyVideo "video.mp4";
       COpen "video.mp4";
       CEditText MSG_UPLOADING;
       CDownload DRIVE_LINK;
       CReplyText MSG_DOWNLOADING ])) /\
  ~ raises_exceptions_only cancelled_at_upload.
Proof.
  split.
  - vm_compute. reflexivity.
  - intros (_ & _ & _ & H).
    specialize (H w_fresh EmptyString (mk_exn CancelledError EmptyString) eq_refl).
    discriminate H.
Qed.

(** The same defect seen from [handle_link]: with the database file
    unreachable, a conversion whose download and upload succeeded is
    reported to the user as an unexpected error, and the error of the
    second append, made by the except clause, leaves the handler. *)
Lemma unreachable_database_breaks_success :
  fst (run_handle_link db_unreachable DRIVE_LINK 42 w_ready) =
    Raise (mk_exn UnboundLocalError
             "cannot access local variable 'conn' where it is not associated with a value") /\
  last_text (trace (snd (run_handle_link db_unreachable DRIVE_LINK 42 w_ready))) =
    Some (MSG_UNEXPECTED +:+
          "cannot access local variable 'conn' where it is not associated with a value") /\
  last_text (trace (snd (run_handle_link nominal DRIVE_LINK 42 w_ready))) = Some MSG_COMPLETE.
Proof. repeat split; vm_compute; reflexivity. Qed.

(** ** The other handlers and the scenarios of the specification *)

(** The entry point prompts for the link and moves to [GET_LINK]. *)
Lemma convert_start_run (O : Collaborators) (w : World) :
  tg_send O w (CReplyText MSG_PROMPT) = None ->
  run tt (convert_start O) w = (Ret GET_LINK, record_call (CReplyText MSG_PROMPT) w).
Proof.
  intros Hs. unfold run, convert_start, reply_text, effect_call, bind, ret. simpl.
  rewrite Hs. reflexivity.
Qed.

(** Cancelling acknowledges and ends the conversation; it touches
    neither the disk nor the ledger. *)
Lemma cancel_run (O : Collaborators) (w : World) :
  tg_send O w (CReplyText MSG_CANCELLED) = None ->
  run tt (cancel O) w = (Ret END, record_call (CReplyText MSG_CANCELLED) w).
Proof.
  intros Hs. unfold run, cancel, reply_text, effect_call, bind, ret. simpl.
  rewrite Hs. reflexivity.
Qed.

(** A drive link, the download and the upload succeed: one "done"
    record, the confirmation, no file left. *)
Example scenario_success :
  run_handle_link nominal DRIVE_LINK 42 w_ready =
  (Ret END,
   mk_world ∅
     [mk_table "videos" videos_columns
        [mk_row 1 "42" DRIVE_LINK (Some "BAACAgQAAxkBAAIB") "done" NOW] 1]
     [ CLog INFO "Successfully deleted local file: video.mp4";
       CRemove "video.mp4";
       CEditText MSG_COMPLETE;
       CSql SqlClose; CSql SqlCommit;
       CSql (SqlExecute (InsertVideo "42" DRIVE_LINK (Some "BAACAgQAAxkBAAIB") "done"));
       CSql SqlConnect;
       CReplyVideo "video.mp4";
       COpen "video.mp4";
       CEditText MSG_UPLOADING;
       CDownload DRIVE_LINK;
       CReplyText MSG_DOWNLOADING ]).
Proof. vm_compute. reflexivity. Qed.

(** Another host: the warning and nothing else. *)
Example scenario_other_host :
  run_handle_link nominal "https://example.com/video.mp4" 42 w_ready =
  (Ret END, mk_world ∅ (database w_ready) [CReplyText MSG_INVALID_LINK]).
Proof. vm_compute. reflexivity. Qed.

(** The upload is refused as too big: one "error" record with a null
    reference, the oversize message, no file left. *)
Example scenario_oversize :
  run_handle_link (upload_refused "File is too big: 2147483648 bytes") DRIVE_LINK 42 w_ready =
  (Ret END,
   mk_world ∅
     [mk_table "videos" videos_columns [mk_row 1 "42" DRIVE_LINK None "error" NOW] 1]
     [ CLog INFO "Successfully deleted local file: video.mp4";
       CRemove "video.mp4";
       CSql SqlClose; CSql SqlCommit;
       CSql (SqlExecute (InsertVideo "42" DRIVE_LINK None "error"));
       CSql SqlConnect;
       CEditText MSG_TOO_BIG;
       CLog ERROR "Telegram upload error: File is too big: 2147483648 bytes";
       CReplyVideo "video.mp4";
       COpen "video.mp4";
       CEditText MSG_UPLOADING;
       CDownload DRIVE_LINK;
       CReplyText MSG_DOWNLOADING ]).
Proof. vm_compute. reflexivity. Qed.

(** * Beyond the claims *)

(** ** The ledger functions under every behaviour of the engine *)

Lemma emits_refl (P : Call -> bool) (w : World) : emits P w w.
Proof. exists []. split; reflexivity. Qed.

Lemma emits_trans (P : Call -> bool) (a b c : World) :
  emits P a b -> emits P b c -> emits P a c.
Proof.
  intros (l1 & H1 & P1) (l2 & H2 & P2). exists (l2 ++ l1). split.
  - rewrite H2, H1. apply app_assoc.
  - rewrite forallb_app, P1, P2. reflexivity.
Qed.

Lemma emits_record (P : Call -> bool) (c : Call) (w : World) :
  P c = true -> emits P w (record_call c w).
Proof. intros Hc. exists [c]. split; [reflexivity|]. simpl. rewrite Hc. reflexivity. Qed.

Lemma emits_set_database (P : Call -> bool) {L} (db : Database) :
  steps (emits P) (@set_database L db).
Proof. intros s. exists []. split; reflexivity. Qed.

Lemma emits_weaken (P Q : Call -> bool) (w w' : World) :
  (forall c, P c = true -> Q c = true) -> emits P w w' -> emits Q w w'.
Proof.
  intros HPQ (l & Hl & HP). exists l. split; [exact Hl|].
  apply forallb_forall. intros c Hc. apply HPQ.
  exact (proj1 (forallb_forall P l) HP c Hc).
Qed.

Lemma with_connection_emits (O : Collaborators) (stmt : Statement)
    (after : M db_locals unit) (prefix : string) :
  steps (emits is_ledger_call) after ->
  steps (emits is_ledger_call) (with_connection O stmt after prefix).
Proof.
  intros Ha.
  unfold with_connection, sqlite3_connect, cursor_execute, conn_commit, conn_close,
    read_conn, sql_call, logger_error, logger_info.
  steps_tac; intros;
    first [ apply emits_refl | eapply emits_trans; eassumption
          | apply emits_set_database | assumption
          | apply emits_record; reflexivity ].
Qed.

Lemma log_to_db_emits (O : Collaborators) (user_id : Z) (link : string)
    (f : option string) (st : string) :
  steps (emits is_ledger_call) (log_to_db O user_id link f st).
Proof. apply with_connection_emits. intros s. apply emits_refl. Qed.

Lemma setup_database_emits (O : Collaborators) :
  steps (emits is_ledger_call) (setup_database O).
Proof.
  apply with_connection_emits. unfold logger_info.
  apply steps_effect_call. intros w. apply emits_record. reflexivity.
Qed.

Lemma append_rows_table_names (name : string) (rs : list Row) (db : Database) :
  table_names (append_rows name rs db) = table_names db.
Proof.
  unfold table_names.
  induction db as [|t db IH]; unfold append_rows; fold append_rows; [reflexivity|].
  destruct (String.eqb (tbl_name t) name); cbn [map tbl_name]; [reflexivity|].
  rewrite IH. reflexivity.
Qed.

Lemma append_rows_other_table (name other : string) (rs : list Row) (db : Database) :
  other <> name ->
  find_table other (append_rows name rs db) = find_table other db.
Proof.
  intros Hne. unfold find_table.
  induction db as [|t db IH]; unfold append_rows; fold append_rows; [reflexivity|].
  destruct (String.eqb (tbl_name t) name) eqn:He; simpl.
  - apply String.eqb_eq in He.
    destruct (String.eqb (tbl_name t) other) eqn:Ho; [|reflexivity].
    apply String.eqb_eq in Ho. congruence.
  - rewrite IH. reflexivity.
Qed.

Lemma ledger_create_videos (db : Database) :
  ledger (create_videos_if_not_exists db) = ledger db.
Proof.
  unfold create_videos_if_not_exists.
  destruct (has_table "videos" db) eqn:Hh; [reflexivity|].
  unfold ledger, find_table, has_table in *.
  induction db as [|t db IH]; simpl in *; [reflexivity|].
  destruct (String.eqb (tbl_name t) "videos"); [discriminate|]. exact (IH Hh).
Qed.

(** X1. [setup_database] has the finally clause of [log_to_db]: when
    [sqlite3.connect] raises, the failure is logged and the function
    then raises [UnboundLocalError]; the database is as it was. *)
Theorem setup_database_raises_when_connect_fails (O : Collaborators) (w : World)
    (m : string) :
  sql_fault O w SqlConnect = Some m ->
  run_setup_database O w =
  (Raise (mk_exn UnboundLocalError
            "cannot access local variable 'conn' where it is not associated with a value"),
   mk_world (files w) (database w)
     (CLog ERROR ("Database error: " +:+ m) :: CSql SqlConnect :: trace w)).
Proof.
  intros Hc. unfold_db. cbn. rewrite Hc. cbn. reflexivity.
Qed.

Lemma setup_database_raises_when_connect_fails_witness :
  exn_cls
    (match fst (run_setup_database db_unreachable w_fresh) with
     | Raise e => e
     | Ret _ => mk_exn Exception EmptyString
     end) = UnboundLocalError /\
  database (snd (run_setup_database db_unreachable w_fresh)) = [].
Proof.
  rewrite (setup_database_raises_when_connect_fails db_unreachable w_fresh
             "unable to open database file" eq_refl).
  split; reflexivity.
Defined.

(** X2. Whatever the engine does, [setup_database] keeps every table
    and every row that was there: the database it leaves is the one it
    found, or that one followed by an empty [videos] table when there
    was none; the disk is untouched. *)
Theorem setup_database_keeps_the_ledger (O : Collaborators) (w : World) :
  (database (snd (run_setup_database O w)) = database w \/
   has_table "videos" (database w) = false /\
   database (snd (run_setup_database O w)) =
     database w ++ [mk_table "videos" videos_columns [] 0]) /\
  ledger (database (snd (run_setup_database O w))) = ledger (database w) /\
  files (snd (run_setup_database O w)) = files w.
Proof.
  assert (Hdb : database (snd (run_setup_database O w)) = database w \/
                database (snd (run_setup_database O w)) =
                  create_videos_if_not_exists (database w)).
  { unfold_db. cbn. case_sql; rewrite ?append_rows_nil;
      first [left; reflexivity | right; reflexivity]. }
  split; [|split].
  - destruct Hdb as [Hdb|Hdb]; [left; exact Hdb|].
    rewrite Hdb. unfold create_videos_if_not_exists.
    destruct (has_table "videos" (database w)); [left | right; split]; reflexivity.
  - destruct Hdb as [-> | ->]; [reflexivity | apply ledger_create_videos].
  - pose proof (setup_database_quiet O (mk_frame w unbound)) as [Hf _].
    unfold run_setup_database, run.
    destruct (setup_database O (mk_frame w unbound)) as [r s]. exact Hf.
Qed.

(** X3. Once [sqlite3.connect] has returned, [setup_database] and
    [log_to_db] return normally whatever fails afterwards, and the last
    thing each does is close the connection it opened. *)
Theorem connection_is_closed (O : Collaborators) (user_id : Z) (link : string)
    (f : option string) (st : string) (w : World) :
  sql_fault O w SqlConnect = None ->
  (fst (run_setup_database O w) = Ret tt /\
   head (trace (snd (run_setup_database O w))) = Some (CSql SqlClose)) /\
  (fst (run_log_to_db O user_id link f st w) = Ret tt /\
   head (trace (snd (run_log_to_db O user_id link f st w))) = Some (CSql SqlClose)).
Proof.
  intros Hc. split; unfold_db; cbn; rewrite Hc; cbn; case_sql; split; reflexivity.
Qed.

Lemma connection_is_closed_witness :
  fst (run_log_to_db private_file_db_locked 42 DRIVE_LINK None "error" w_ready) = Ret tt /\
  head (trace (snd (run_log_to_db private_file_db_locked 42 DRIVE_LINK None "error" w_ready))) =
    Some (CSql SqlClose).
Proof.
  exact (proj2 (connection_is_closed private_file_db_locked 42 DRIVE_LINK None "error"
                  w_ready eq_refl)).
Defined.

(** X4. [log_to_db] is all or nothing and only appends: whatever the
    engine does, the database it leaves is the one it found, or that
    one with exactly one row added at the end of [videos], carrying
    [str(user_id)], the link, the file reference and the status it was
    given; the tables are the same and every other table is
    untouched. *)
Theorem log_to_db_appends_one_row_or_nothing (O : Collaborators) (user_id : Z)
    (link : string) (f : option string) (st : string) (w : World) :
  table_names (database (snd (run_log_to_db O user_id link f st w))) =
    table_names (database w) /\
  (forall other, other <> "videos" ->
     find_table other (database (snd (run_log_to_db O user_id link f st w))) =
     find_table other (database w)) /\
  (database (snd (run_log_to_db O user_id link f st w)) = database w \/
   exists row,
     ledger (database (snd (run_log_to_db O user_id link f st w))) =
       ledger (database w) ++ [row] /\
     row_user_id row = str_of_int user_id /\ row_original_link row = link /\
     row_telegram_file row = f /\ row_status row = st).
Proof.
  assert (Hdb : database (snd (run_log_to_db O user_id link f st w)) = database w \/
                exists t now,
                  find_table "videos" (database w) = Some t /\
                  database (snd (run_log_to_db O user_id link f st w)) =
                    append_rows "videos" [new_row t user_id link f st now] (database w)).
  { unfold_db. cbn. case_sql; try (left; reflexivity).
    right. eexists _, _. split; [reflexivity|].
    unfold new_row. rewrite Z.add_0_r. reflexivity. }
  destruct Hdb as [Hdb | (t & now & Ht & Hdb)]; rewrite Hdb.
  - split; [reflexivity|]. split; [reflexivity|]. left. reflexivity.
  - split; [apply append_rows_table_names|].
    split; [intros other Hne; apply append_rows_other_table, Hne|].
    right. eexists. split; [apply (ledger_append_rows _ _ t Ht)|].
    repeat split; reflexivity.
Qed.

(** X5. An append on a database in which [setup_database] never
    created the table: the INSERT is refused, the refusal is logged,
    the connection is closed, nothing is created and nothing is
    raised. *)
Theorem log_to_db_without_table (O : Collaborators) (user_id : Z) (link : string)
    (f : option string) (st : string) (w : World) :
  find_table "videos" (database w) = None ->
  sql_fault O w SqlConnect = None ->
  sql_fault O (record_call (CSql SqlConnect) w)
    (SqlExecute (InsertVideo (str_of_int user_id) link f st)) = None ->
  run_log_to_db O user_id link f st w =
  (Ret tt,
   mk_world (files w) (database w)
     (CSql SqlClose
      :: CLog ERROR "Failed to log to database: no such table: videos"
      :: CSql (SqlExecute (InsertVideo (str_of_int user_id) link f st))
      :: CSql SqlConnect :: trace w)).
Proof.
  intros Ht Hc He. unfold_db. cbn. rewrite Hc. cbn. rewrite He. cbn. rewrite Ht. cbn.
  reflexivity.
Qed.

Lemma log_to_db_without_table_witness :
  fst (run_log_to_db nominal 42 DRIVE_LINK None "error" w_fresh) = Ret tt /\
  database (snd (run_log_to_db nominal 42 DRIVE_LINK None "error" w_fresh)) = [].
Proof.
  rewrite (log_to_db_without_table nominal 42 DRIVE_LINK None "error" w_fresh
             eq_refl eq_refl eq_refl).
  split; reflexivity.
Defined.

(** X6. Initialising and then appending: with an engine that does its
    work, on any database file, [setup_database] followed by
    [log_to_db] adds exactly one row to the ledger, after the rows
    that were there. *)
Theorem setup_then_log_to_db (O : Collaborators) (user_id : Z) (link : string)
    (f : option string) (st : string) (w : World) :
  (forall w' op, sql_fault O w' op = None) ->
  fst (run_log_to_db O user_id link f st (snd (run_setup_database O w))) = Ret tt /\
  exists row,
    ledger (database (snd (run_log_to_db O user_id link f st (snd (run_setup_database O w))))) =
      ledger (database w) ++ [row] /\
    row_user_id row = str_of_int user_id /\ row_original_link row = link /\
    row_telegram_file row = f /\ row_status row = st.
Proof.
  intros Hsql.
  pose proof (setup_database_created O w (Hsql _ _) (Hsql _ _)) as Hdb.
  pose proof (create_videos_has_table (database w)) as Hhas. rewrite <- Hdb in Hhas.
  destruct (has_table_find_table _ _ Hhas) as [t Ht].
  unfold run_log_to_db, run.
  rewrite (log_to_db_ok O user_id link f st _ t Hsql Ht). cbn [fst snd world database].
  split; [reflexivity|]. eexists.
  split; [rewrite (ledger_append_rows _ _ t Ht), Hdb, ledger_create_videos; reflexivity|].
  repeat split; reflexivity.
Qed.

Lemma setup_then_log_to_db_witness :
  map row_status
    (ledger (database (snd (run_log_to_db nominal 42 DRIVE_LINK None "error"
                              (snd (run_setup_database nominal w_fresh)))))) = ["error"].
Proof.
  destruct (setup_then_log_to_db nominal 42 DRIVE_LINK None "error" w_fresh
              (fun _ _ => eq_refl)) as (_ & row & Hl & _ & _ & _ & Hst).
  rewrite Hl. simpl. rewrite Hst. reflexivity.
Defined.

(** X7. The ledger functions talk to the engine and to the logger
    only: whatever the engine does, neither [setup_database] nor
    [log_to_db] sends anything to the user, downloads, uploads,
    opens or removes a file, and the disk is as it was. *)
Theorem ledger_functions_are_silent (O : Collaborators) (user_id : Z) (link : string)
    (f : option string) (st : string) (w : World) :
  (emits is_ledger_call w (snd (run_setup_database O w)) /\
   files (snd (run_setup_database O w)) = files w) /\
  (emits is_ledger_call w (snd (run_log_to_db O user_id link f st w)) /\
   files (snd (run_log_to_db O user_id link f st w)) = files w).
Proof.
  unfold run_setup_database, run_log_to_db, run. split.
  - pose proof (setup_database_emits O (mk_frame w unbound)) as He.
    pose proof (setup_database_quiet O (mk_frame w unbound)) as [Hf _].
    destruct (setup_database O (mk_frame w unbound)) as [r s]. split; assumption.
  - pose proof (log_to_db_emits O user_id link f st (mk_frame w unbound)) as He.
    pose proof (log_to_db_quiet O user_id link f st (mk_frame w unbound)) as [Hf _].
    destruct (log_to_db O user_id link f st (mk_frame w unbound)) as [r s].
    split; assumption.
Qed.

(** ** Computations that do a thing at most once *)

Lemma bind_run {L A B} (m : M L A) (k : A -> M L B) (s : frame L) :
  bind m k s =
  match m s with
  | (Ret a, s') => k a s'
  | (Raise e, s') => (Raise e, s')
  end.
Proof. reflexivity. Qed.

Section AtMostOnce.

(** [R0]: the thing is not done; [R1]: it is done at most once. *)
Variables R0 R1 : World -> World -> Prop.
Hypothesis R0_R1 : forall a b, R0 a b -> R1 a b.
Hypothesis R0_then_R1 : forall a b c, R0 a b -> R1 b c -> R1 a c.
Hypothesis R1_then_R0 : forall a b c, R1 a b -> R0 b c -> R1 a c.

Lemma once_weaken {L A} (m : M L A) : steps R0 m -> steps R1 m.
Proof. intros H s. apply R0_R1, H. Qed.

Lemma once_bind_later {L A B} (m : M L A) (k : A -> M L B) :
  steps R0 m -> (forall a, steps R1 (k a)) -> steps R1 (bind m k).
Proof.
  intros Hm Hk s. rewrite bind_run. specialize (Hm s).
  destruct (m s) as [[a|e] s']; simpl in *.
  - eapply R0_then_R1; [exact Hm | apply Hk].
  - apply R0_R1, Hm.
Qed.

Lemma once_bind_first {L A B} (m : M L A) (k : A -> M L B) :
  steps R1 m -> (forall a, steps R0 (k a)) -> steps R1 (bind m k).
Proof.
  intros Hm Hk s. rewrite bind_run. specialize (Hm s).
  destruct (m s) as [[a|e] s']; simpl in *.
  - eapply R1_then_R0; [exact Hm | apply Hk].
  - exact Hm.
Qed.

Lemma once_try_except {L A} (body : M L A) (cs : list (clause L A)) :
  steps R1 body ->
  (forall c h, In (c, h) cs -> forall e, steps R0 (h e)) ->
  steps R1 (try_except body cs).
Proof.
  intros Hb Hcs s. unfold try_except. specialize (Hb s).
  destruct (body s) as [[a|e] s']; simpl in *; [exact Hb|].
  destruct (select_clause e cs) as [h|] eqn:Hs; simpl; [|exact Hb].
  destruct (select_clause_in _ _ _ Hs) as (c & Hin & _).
  eapply R1_then_R0; [exact Hb | eapply Hcs; eassumption].
Qed.

End AtMostOnce.

(** *** Ledger rows *)

Lemma same_ledger_refl (w : World) : same_ledger w w.
Proof. reflexivity. Qed.

Lemma same_ledger_trans (a b c : World) :
  same_ledger a b -> same_ledger b c -> same_ledger a c.
Proof. unfold same_ledger. congruence. Qed.

Lemma same_ledger_database (w w' : World) :
  database w' = database w -> same_ledger w w'.
Proof. unfold same_ledger. intros ->. reflexivity. Qed.

Lemma row_weaken (Q : Row -> Prop) (a b : World) :
  same_ledger a b -> at_most_one_row Q a b.
Proof. intros H. left. exact H. Qed.

Lemma row_later (Q : Row -> Prop) (a b c : World) :
  same_ledger a b -> at_most_one_row Q b c -> at_most_one_row Q a c.
Proof.
  unfold same_ledger, at_most_one_row. intros Hab [Hbc | (row & Hbc & HQ)].
  - left. congruence.
  - right. exists row. split; [congruence | exact HQ].
Qed.

Lemma row_first (Q : Row -> Prop) (a b c : World) :
  at_most_one_row Q a b -> same_ledger b c -> at_most_one_row Q a c.
Proof.
  unfold same_ledger, at_most_one_row. intros [Hab | (row & Hab & HQ)] Hbc.
  - left. congruence.
  - right. exists row. split; [congruence | exact HQ].
Qed.

(** *** Uploads *)

Lemma not_upload_once (a b : World) : emits not_upload a b -> at_most_one_upload a b.
Proof.
  intros (l & Hl & HP). exists l. split; [exact Hl|].
  assert (Hnil : List.filter is_upload l = []).
  { clear Hl. induction l as [|c l IH]; [reflexivity|].
    simpl in HP. apply andb_true_iff in HP as [Hc Hl].
    unfold not_upload in Hc. apply negb_true_iff in Hc.
    simpl. rewrite Hc. exact (IH Hl). }
  rewrite Hnil. simpl. lia.
Qed.

Lemma filter_upload_none (l : list Call) :
  forallb not_upload l = true -> List.filter is_upload l = [].
Proof.
  induction l as [|c l IH]; [reflexivity|].
  simpl. intros HP. apply andb_true_iff in HP as [Hc Hl].
  unfold not_upload in Hc. apply negb_true_iff in Hc. rewrite Hc. exact (IH Hl).
Qed.

Lemma upload_later (a b c : World) :
  emits not_upload a b -> at_most_one_upload b c -> at_most_one_upload a c.
Proof.
  intros (l1 & H1 & P1) (l2 & H2 & P2). exists (l2 ++ l1). split.
  - rewrite H2, H1. apply app_assoc.
  - rewrite List.filter_app, length_app, (filter_upload_none l1 P1). simpl. lia.
Qed.

Lemma upload_first (a b c : World) :
  at_most_one_upload a b -> emits not_upload b c -> at_most_one_upload a c.
Proof.
  intros (l1 & H1 & P1) (l2 & H2 & P2). exists (l2 ++ l1). split.
  - rewrite H2, H1. apply app_assoc.
  - rewrite List.filter_app, length_app, (filter_upload_none l2 P2). simpl. lia.
Qed.

(** ** The handler under every behaviour of the collaborators *)

Lemma guarded_convert_split (O : Collaborators) (link : string) (user_id : Z)
    (s : frame link_locals) :
  guarded_convert O link user_id s =
  after_download O link user_id (fst (gdown_download O (world s) link))
    (mk_frame (downloaded O link (world s)) (locals s)).
Proof.
  unfold guarded_convert, after_download, convert_body, downloaded.
  rewrite !try_except_bind. unfold gdown_call.
  destruct (gdown_download O (world s) link) as [[p|e] fs]; reflexivity.
Qed.

(** [handle_link] once the status message is sent, in three parts: the
    download, the rest of the try statement, the finally clause. *)
Lemma handle_link_split (O : Collaborators) (link : string) (user_id : Z) (w : World) :
  contains HOST_MARKER link = true ->
  tg_send O w (CReplyText MSG_DOWNLOADING) = None ->
  snd (run_handle_link O link user_id w) =
  world (snd (cleanup O
    (snd (after_download O link user_id
            (fst (gdown_download O (record_call (CReplyText MSG_DOWNLOADING) w) link))
            (mk_frame (downloaded O link (record_call (CReplyText MSG_DOWNLOADING) w))
               (mk_link_locals None)))))).
Proof.
  intros Hc Hs. rewrite (handle_link_valid O link user_id w Hc Hs). cbn [snd].
  rewrite guarded_convert_split. reflexivity.
Qed.

Section Discipline.

Variable O : Collaborators.
Variable link : string.
Variable user_id : Z.

Lemma cleanup_emits (P : Call -> bool) (s : frame link_locals) :
  (forall p, P (CRemove p) = true) ->
  (forall lv t, P (CLog lv t) = true) ->
  emits P (world s) (world (snd (cleanup O s))).
Proof.
  intros Hrm Hlog. rewrite cleanup_run.
  destruct (output_path (locals s)); [|apply emits_refl].
  destruct (path_exists _ _); [|apply emits_refl].
  destruct (remove_fault _ _ _); simpl; eexists [_; _];
    (split; [reflexivity|]); simpl; rewrite Hrm, Hlog; reflexivity.
Qed.

(** After the download, every call satisfies [P] as soon as the calls
    other than downloads do. *)
Lemma after_download_emits (P : Call -> bool) (r : outcome (option string)) :
  (forall c, is_download c = false -> P c = true) ->
  steps (emits P) (after_download O link user_id r).
Proof.
  intros HP.
  unfold after_download, on_telegram_error, on_exception, edit_text, open_rb, logger_error.
  steps_tac; intros;
    first [ apply emits_refl | eapply emits_trans; eassumption
          | apply emits_record; apply HP; reflexivity
          | intros ?; unfold send_video; simpl; apply emits_record; apply HP; reflexivity
          | intros ?; eapply emits_weaken; [|apply log_to_db_emits];
            intros c Hc; apply HP; destruct c; first [reflexivity | discriminate Hc]
          | intros ?; apply emits_refl ].
Qed.

(** Without a downloaded file, after the download every call satisfies
    [P] as soon as the messages, the engine and the logger do. *)
Lemma after_failed_download_emits (P : Call -> bool) (r : outcome (option string)) :
  (forall path, r <> Ret (Some path)) ->
  (forall c, no_artifact c = true -> P c = true) ->
  steps (emits P) (after_download O link user_id r).
Proof.
  intros Hr HP s0. unfold after_download. rewrite try_except_bind.
  destruct r as [[path|]|e]; [exfalso; exact (Hr path eq_refl)| |]; cbn beta iota;
    match goal with
    | |- emits _ _ (world (snd (?m s0))) => apply (fun H : steps (emits P) m => H s0)
    end;
    unfold on_telegram_error, on_exception, edit_text, logger_error;
    steps_tac; intros;
      first [ apply emits_refl | eapply emits_trans; eassumption
            | apply emits_record; apply HP; reflexivity
            | intros ?; eapply emits_weaken; [|apply log_to_db_emits];
              intros c Hc; apply HP; destruct c; first [reflexivity | discriminate Hc]
            | intros ?; apply emits_refl ].
Qed.

Lemma after_download_same_files (r : outcome (option string)) :
  steps same_files (after_download O link user_id r).
Proof.
  unfold after_download, on_telegram_error, on_exception, edit_text, open_rb, logger_error.
  steps_tac; intros;
    first [ reflexivity
          | unfold same_files in *; congruence
          | intros ?; reflexivity
          | intros s0; exact (proj1 (log_to_db_quiet O _ _ _ _ s0)) ].
Qed.

Lemma call_log_to_db_row (f : option string) (st : string) :
  steps (at_most_one_row (fun row =>
           row_user_id row = str_of_int user_id /\ row_original_link row = link /\
           row_telegram_file row = f /\ row_status row = st))
    (@call link_locals db_locals unit unbound (log_to_db O user_id link f st)).
Proof.
  intros s. unfold call.
  pose proof (log_to_db_ledger O user_id link f st (world s)) as H.
  destruct (log_to_db O user_id link f st (mk_frame (world s) unbound)) as [r s'].
  exact H.
Qed.

Lemma call_log_to_db_emits (f : option string) (st : string) :
  steps (emits is_ledger_call)
    (@call link_locals db_locals unit unbound (log_to_db O user_id link f st)).
Proof. apply steps_call, log_to_db_emits. Qed.

End Discipline.

Lemma after_download_upload_once (O : Collaborators) (link : string) (user_id : Z)
    (r : outcome (option string)) :
  steps at_most_one_upload (after_download O link user_id r).
Proof.
  assert (Hrec : forall c w, not_upload c = true -> emits not_upload w (record_call c w)).
  { intros c w Hc. apply emits_record, Hc. }
  assert (Hlog : forall f st, steps (emits not_upload)
                   (@call link_locals db_locals unit unbound (log_to_db O user_id link f st))).
  { intros f st s. eapply emits_weaken; [|apply call_log_to_db_emits].
    intros c Hc. destruct c; first [reflexivity | discriminate Hc]. }
  unfold after_download.
  apply (once_try_except (emits not_upload) at_most_one_upload upload_first).
  - apply (once_bind_later (emits not_upload) at_most_one_upload not_upload_once upload_later);
      [intros s; apply emits_refl|]. intros p.
    apply (once_bind_later (emits not_upload) at_most_one_upload not_upload_once upload_later);
      [intros s; apply emits_refl|]. intros _.
    destruct p as [path|].
    + apply (once_bind_later (emits not_upload) at_most_one_upload not_upload_once
               upload_later).
      { apply steps_effect_call. intros w. apply Hrec. reflexivity. }
      intros _.
      apply (once_bind_first (emits not_upload) at_most_one_upload upload_first).
      * apply (once_bind_later (emits not_upload) at_most_one_upload not_upload_once
                 upload_later).
        { apply steps_effect_call. intros w. apply Hrec. reflexivity. }
        intros _ s. exists [CReplyVideo path]. split; [reflexivity | simpl; lia].
      * intros fid.
        apply (steps_bind (emits not_upload) (emits_trans not_upload)); [apply Hlog|].
        intros _. apply steps_effect_call. intros w. apply Hrec. reflexivity.
    + apply (once_weaken (emits not_upload) at_most_one_upload not_upload_once).
      intros s. apply emits_refl.
  - unfold on_telegram_error, on_exception, edit_text, logger_error.
    steps_tac; intros;
      first [ apply emits_refl | eapply emits_trans; eassumption
            | apply Hrec; reflexivity
            | intros ?; eapply emits_weaken; [|apply log_to_db_emits];
              intros c Hc; destruct c; first [reflexivity | discriminate Hc] ].
Qed.

(** X8. No retries: once the status message is sent, [handle_link]
    calls the download exactly once, with the submitted text, and
    whatever the collaborators answer it never calls it again and
    uploads at most once. *)
Theorem handle_link_never_retries (O : Collaborators) (link : string) (user_id : Z)
    (w : World) :
  contains HOST_MARKER link = true ->
  tg_send O w (CReplyText MSG_DOWNLOADING) = None ->
  exists l,
    trace (snd (run_handle_link O link user_id w)) =
      l ++ CDownload link :: CReplyText MSG_DOWNLOADING :: trace w /\
    forallb not_download l = true /\
    length (List.filter is_upload l) <= 1.
Proof.
  intros Hc Hs. rewrite (handle_link_split O link user_id w Hc Hs).
  set (r := fst (gdown_download O (record_call (CReplyText MSG_DOWNLOADING) w) link)).
  set (s1 := mk_frame (downloaded O link (record_call (CReplyText MSG_DOWNLOADING) w))
               (mk_link_locals None)).
  set (s2 := snd (after_download O link user_id r s1)).
  assert (Hd : emits not_download (world s1) (world (snd (cleanup O s2)))).
  { eapply emits_trans.
    - apply (after_download_emits O link user_id not_download r).
      intros c Hcd. unfold not_download. rewrite Hcd. reflexivity.
    - apply cleanup_emits; reflexivity. }
  assert (Hu : at_most_one_upload (world s1) (world (snd (cleanup O s2)))).
  { eapply upload_first.
    - apply (after_download_upload_once O link user_id r s1).
    - apply cleanup_emits; reflexivity. }
  destruct Hd as (l & Hl & Hnd). destruct Hu as (l' & Hl' & Hup).
  exists l. split; [exact Hl|]. split; [exact Hnd|].
  rewrite Hl in Hl'. apply app_inv_tail in Hl'. subst l'. exact Hup.
Qed.

Lemma handle_link_never_retries_witness :
  exists l,
    trace (snd (run_handle_link confirmation_lost DRIVE_LINK 42 w_ready)) =
      l ++ [CDownload DRIVE_LINK; CReplyText MSG_DOWNLOADING] /\
    forallb not_download l = true /\
    length (List.filter is_upload l) <= 1.
Proof.
  exact (handle_link_never_retries confirmation_lost DRIVE_LINK 42 w_ready eq_refl eq_refl).
Defined.

(** X9. No upload without a file: when the download returns [None] or
    raises, [handle_link] neither opens, uploads nor removes anything:
    after the download it only edits the status message, writes the
    ledger and logs, and the disk is as the download left it. *)
Theorem no_artifact_no_upload (O : Collaborators) (link : string) (user_id : Z)
    (w : World) :
  contains HOST_MARKER link = true ->
  tg_send O w (CReplyText MSG_DOWNLOADING) = None ->
  (forall path,
     fst (gdown_download O (record_call (CReplyText MSG_DOWNLOADING) w) link) <>
     Ret (Some path)) ->
  (exists l,
     trace (snd (run_handle_link O link user_id w)) =
       l ++ CDownload link :: CReplyText MSG_DOWNLOADING :: trace w /\
     forallb no_artifact l = true) /\
  files (snd (run_handle_link O link user_id w)) =
    snd (gdown_download O (record_call (CReplyText MSG_DOWNLOADING) w) link).
Proof.
  intros Hc Hs Hr.
  rewrite (handle_link_valid O link user_id w Hc Hs). cbn [snd].
  pose proof (guarded_convert_output_path O link user_id (try_entry w) eq_refl) as Hp.
  assert (Hnone : output_path (locals (snd (guarded_convert O link user_id (try_entry w)))) = None).
  { rewrite Hp. cbn [try_entry world].
    destruct (fst (gdown_download O (record_call (CReplyText MSG_DOWNLOADING) w) link))
      as [[path|]|e] eqn:Hd; [exfalso; exact (Hr path eq_refl) | reflexivity | reflexivity]. }
  rewrite cleanup_run, Hnone. cbn [snd].
  rewrite guarded_convert_split. cbn [try_entry world locals].
  split.
  - exact (after_failed_download_emits O link user_id no_artifact _ Hr (fun c H => H) _).
  - exact (after_download_same_files O link user_id _ _).
Qed.

Lemma no_artifact_no_upload_witness :
  files (snd (run_handle_link (download_raises (mk_exn Exception "Cannot retrieve the public link"))
                DRIVE_LINK 42 w_ready)) = ∅.
Proof.
  refine (proj2 (no_artifact_no_upload
                   (download_raises (mk_exn Exception "Cannot retrieve the public link"))
                   DRIVE_LINK 42 w_ready eq_refl eq_refl _)).
  intros path. discriminate.
Defined.

Lemma convert_body_row (O : Collaborators) (link : string) (user_id : Z) :
  steps (at_most_one_row (done_row user_id link)) (convert_body O link user_id).
Proof.
  assert (Hrec : forall c w, same_ledger w (record_call c w)) by reflexivity.
  unfold convert_body.
  apply (once_bind_later same_ledger _ (row_weaken _) (row_later _)).
  { intros s. unfold gdown_call. destruct (gdown_download O (world s) link). reflexivity. }
  intros p.
  apply (once_bind_later same_ledger _ (row_weaken _) (row_later _));
    [intros s; reflexivity|]. intros _.
  destruct p as [path|].
  - apply (once_bind_later same_ledger _ (row_weaken _) (row_later _)).
    { apply steps_effect_call, Hrec. }
    intros _.
    apply (once_bind_later same_ledger _ (row_weaken _) (row_later _)).
    { apply (steps_bind same_ledger same_ledger_trans).
      - apply steps_effect_call, Hrec.
      - intros _ s. reflexivity. }
    intros fid.
    apply (once_bind_first same_ledger _ (row_first _)).
    + intros s. destruct (call_log_to_db_row O link user_id (Some fid) "done" s)
        as [H | (row & H & Hu & Hl & Hf & Hst)].
      * left. exact H.
      * right. exists row. split; [exact H|]. unfold done_row. eauto.
    + intros _. apply steps_effect_call, Hrec.
  - apply (once_weaken same_ledger _ (row_weaken _)). intros s. reflexivity.
Qed.

(** X10. Whatever the collaborators do, short of a download that
    returns the database file itself, [handle_link] only appends to the
    ledger, and at most two rows, both for this user and this link: at
    most one "done" row with a file reference, written before at most
    one "error" row without one. *)
Theorem handle_link_writes_at_most_two_rows (O : Collaborators) (link : string)
    (user_id : Z) (w : World) :
  fst (gdown_download O (record_call (CReplyText MSG_DOWNLOADING) w) link) <>
    Ret (Some DB_FILE) ->
  exists rows,
    ledger (database (snd (run_handle_link O link user_id w))) = ledger (database w) ++ rows /\
    (rows = [] \/
     (exists d, rows = [d] /\ done_row user_id link d) \/
     (exists e, rows = [e] /\ error_row user_id link e) \/
     (exists d e, rows = [d; e] /\ done_row user_id link d /\ error_row user_id link e)).
Proof.
  intros _.
  destruct (contains HOST_MARKER link) eqn:Hc.
  2:{ rewrite (handle_link_invalid O link user_id w Hc). exists []. cbn [snd].
      split; [rewrite app_nil_r; reflexivity | left; reflexivity]. }
  destruct (tg_send O w (CReplyText MSG_DOWNLOADING)) as [e0|] eqn:Hs.
  { rewrite (handle_link_status_refused O link user_id w e0 Hc Hs). exists []. cbn [snd].
    split; [rewrite app_nil_r; reflexivity | left; reflexivity]. }
  rewrite (handle_link_valid O link user_id w Hc Hs). cbn [snd].
  rewrite cleanup_database, guarded_convert_run.
  pose proof (convert_body_row O link user_id (try_entry w)) as Hb.
  destruct (convert_body O link user_id (try_entry w)) as [[a|e] s1]; cbn [snd] in *.
  - destruct Hb as [Hb | (d & Hb & Hd)]; cbn [try_entry world database record_call] in Hb.
    + exists []. split; [rewrite app_nil_r; exact Hb | left; reflexivity].
    + exists [d]. split; [exact Hb | right; left; eauto].
  - assert (Hh : at_most_one_row (error_row user_id link) (world s1)
                   (world (snd (if isinstance e TelegramError
                                then on_telegram_error O link user_id e s1
                                else if isinstance e Exception
                                     then on_exception O link user_id e s1
                                     else (Raise e, s1))))).
    { destruct (isinstance e TelegramError);
        [rewrite on_telegram_error_run
        |destruct (isinstance e Exception);
           [rewrite on_exception_run | left; reflexivity]];
        match goal with
        | |- context [report O link user_id ?text ?s] =>
            destruct (report_ledger O link user_id text s)
              as [H | (row & H & Hu & Hl & Hf & Hst)]
        end; cbn [world database record_call] in H;
        first [ left; exact H
              | right; exists row; split; [exact H | unfold error_row; auto] ]. }
    unfold at_most_one_row in Hb, Hh.
    cbn [try_entry world database record_call] in Hb.
    destruct Hb as [Hb | (d & Hb & Hd)]; destruct Hh as [Hh | (r & Hh & Hr)];
      rewrite Hh, Hb.
    + exists []. split; [rewrite app_nil_r; reflexivity | left; reflexivity].
    + exists [r]. split; [reflexivity | right; right; left; eauto].
    + exists [d]. split; [reflexivity | right; left; eauto].
    + exists [d; r]. split; [rewrite <- app_assoc; reflexivity | right; right; right; eauto].
Qed.

Lemma handle_link_writes_at_most_two_rows_witness :
  exists rows,
    ledger (database (snd (run_handle_link confirmation_lost DRIVE_LINK 42 w_ready))) =
      ledger (database w_ready) ++ rows /\
    (rows = [] \/
     (exists d, rows = [d] /\ done_row 42 DRIVE_LINK d) \/
     (exists e, rows = [e] /\ error_row 42 DRIVE_LINK e) \/
     (exists d e, rows = [d; e] /\ done_row 42 DRIVE_LINK d /\ error_row 42 DRIVE_LINK e)).
Proof.
  apply (handle_link_writes_at_most_two_rows confirmation_lost DRIVE_LINK 42 w_ready).
  discriminate.
Defined.

(** X11. Whatever the collaborators do, the only file [handle_link]
    takes off the disk is the one the download returned: after the
    handler the disk is as the download left it, or that without the
    returned path. *)
Theorem handle_link_removes_only_the_artifact (O : Collaborators) (link : string)
    (user_id : Z) (w : World) :
  contains HOST_MARKER link = true ->
  tg_send O w (CReplyText MSG_DOWNLOADING) = None ->
  files (snd (run_handle_link O link user_id w)) =
    snd (gdown_download O (record_call (CReplyText MSG_DOWNLOADING) w) link) \/
  exists path,
    fst (gdown_download O (record_call (CReplyText MSG_DOWNLOADING) w) link) = Ret (Some path) /\
    files (snd (run_handle_link O link user_id w)) =
      snd (gdown_download O (record_call (CReplyText MSG_DOWNLOADING) w) link) ∖ {[path]}.
Proof.
  intros Hc Hs.
  rewrite (handle_link_valid O link user_id w Hc Hs). cbn [snd].
  pose proof (guarded_convert_output_path O link user_id (try_entry w) eq_refl) as Hp.
  assert (Hf : files (world (snd (guarded_convert O link user_id (try_entry w)))) =
               snd (gdown_download O (record_call (CReplyText MSG_DOWNLOADING) w) link)).
  { rewrite guarded_convert_split.
    exact (after_download_same_files O link user_id _ _). }
  cbn [try_entry world] in Hp.
  rewrite cleanup_run.
  destruct (output_path (locals (snd (guarded_convert O link user_id (try_entry w)))))
    as [path|] eqn:Hout; [|left; exact Hf].
  destruct (path_exists _ path); [|left; exact Hf].
  destruct (remove_fault O _ path); cbn [snd world files]; [left; exact Hf|].
  right. exists path. split; [|rewrite Hf; reflexivity].
  destruct (fst (gdown_download O (record_call (CReplyText MSG_DOWNLOADING) w) link))
    as [p|e]; [congruence | discriminate].
Qed.

Lemma handle_link_removes_only_the_artifact_witness :
  files (snd (run_handle_link nominal DRIVE_LINK 42 w_ready)) = (∅ ∪ {["video.mp4"]}) \/
  exists path,
    Ret (Some "video.mp4") = Ret (Some path) /\
    files (snd (run_handle_link nominal DRIVE_LINK 42 w_ready)) =
      (∅ ∪ {["video.mp4"]}) ∖ {[path]}.
Proof.
  exact (handle_link_removes_only_the_artifact nominal DRIVE_LINK 42 w_ready eq_refl eq_refl).
Defined.

(** ** Failures after a successful download *)

#[local] Arguments on_telegram_error : simpl never.
#[local] Arguments on_exception : simpl never.
#[local] Arguments isinstance : simpl never.


Lemma log_to_db_unreachable (O : Collaborators) (user_id : Z) (link : string)
    (f : option string) (st : string) (w : World) (m : string) :
  sql_fault O w SqlConnect = Some m ->
  log_to_db O user_id link f st (mk_frame w unbound) =
  (Raise (mk_exn UnboundLocalError CONN_UNBOUND),
   mk_frame
     (mk_world (files w) (database w)
        (CLog ERROR ("Failed to log to database: " +:+ m) :: CSql SqlConnect :: trace w))
     unbound).
Proof.
  intros Hc. unfold_db. cbn. rewrite Hc. cbn. reflexivity.
Qed.

(** X12. The upload is refused: when the download returned a file that
    is on disk and is not the database file, the status edit and the
    opening went through and the upload raised a [TelegramError],
    then, the report edit sent, the insert accepted and the deletion
    not refused, [handle_link] returns [END] having written exactly
    one row, with status "error" and no file reference; the user's
    last message is the one chosen from the error text, and the local
    file is gone. *)
Theorem upload_refused_end_to_end (O : Collaborators) (link : string) (user_id : Z)
    (w : World) (path : string) (fs : gset string) (e : exn) :
  contains HOST_MARKER link = true ->
  tg_send O w (CReplyText MSG_DOWNLOADING) = None ->
  gdown_download O (record_call (CReplyText MSG_DOWNLOADING) w) link = (Ret (Some path), fs) ->
  path <> EmptyString -> path ∈ fs -> path <> DB_FILE ->
  (forall w', tg_send O w' (CEditText MSG_UPLOADING) = None) ->
  (forall w', open_fault O w' path = None) ->
  (forall w', reply_video O w' path = Raise e) ->
  exn_cls e = TelegramError ->
  (forall w', tg_send O w' (CEditText (upload_error_text (exn_msg e))) = None) ->
  (forall w' op, sql_fault O w' op = None) ->
  has_table "videos" (database w) = true ->
  (forall w', remove_fault O w' path = None) ->
  fst (run_handle_link O link user_id w) = Ret END /\
  (exists row,
     ledger (database (snd (run_handle_link O link user_id w))) = ledger (database w) ++ [row] /\
     error_row user_id link row) /\
  path_exists (snd (run_handle_link O link user_id w)) path = false /\
  last_text (trace (snd (run_handle_link O link user_id w))) =
    Some (upload_error_text (exn_msg e)).
Proof.
  intros Hc Hs Hdl Hne Hin Hdb Hup Hopen Hvid Hcls Hrep Hsql Htab Hrm.
  destruct (has_table_find_table _ _ Htab) as [t Ht].
  rewrite (handle_link_valid O link user_id w Hc Hs). cbn [fst snd].
  rewrite guarded_convert_run.
  unfold convert_body, gdown_call, edit_text, open_rb, send_video, effect_call,
    set_locals, call, bind, try_entry.
  cbn. rewrite Hdl. cbn. rewrite Hup. cbn.
  rewrite path_exists_on_disk by assumption. rewrite Hopen. cbn. rewrite Hvid. cbn.
  rewrite (proj2 (isinstance_TelegramError e) Hcls), !on_telegram_error_run.
  unfold report, edit_text, effect_call, call, bind. cbn. rewrite Hrep. cbn.
  erewrite (log_to_db_ok O user_id link None "error" _ t Hsql) by exact Ht. cbn.
  rewrite !cleanup_run. cbn.
  rewrite path_exists_on_disk by assumption. rewrite Hrm. cbn.
  split; [reflexivity|]. split; [|split; [apply path_exists_removed | reflexivity]].
  eexists. split; [apply (ledger_append_rows _ _ t Ht)|].
  unfold error_row. repeat split; reflexivity.
Qed.

Lemma upload_refused_end_to_end_witness :
  fst (run_handle_link (upload_refused "Timed out") DRIVE_LINK 42 w_ready) = Ret END /\
  (exists row,
     ledger (database (snd (run_handle_link (upload_refused "Timed out") DRIVE_LINK 42 w_ready))) =
       [row] /\ error_row 42 DRIVE_LINK row) /\
  path_exists (snd (run_handle_link (upload_refused "Timed out") DRIVE_LINK 42 w_ready))
    "video.mp4" = false /\
  last_text (trace (snd (run_handle_link (upload_refused "Timed out") DRIVE_LINK 42 w_ready))) =
    Some MSG_TIMED_OUT.
Proof.
  refine (upload_refused_end_to_end (upload_refused "Timed out") DRIVE_LINK 42 w_ready
            "video.mp4" (∅ ∪ {["video.mp4"]}) (mk_exn TelegramError "Timed out")
            eq_refl eq_refl eq_refl _ _ _
            (fun _ => eq_refl) (fun _ => eq_refl) (fun _ => eq_refl) eq_refl
            (fun _ => eq_refl) (fun _ _ => eq_refl) eq_refl (fun _ => eq_refl)).
  - discriminate.
  - apply elem_of_union_r, elem_of_singleton. reflexivity.
  - discriminate.
Defined.



(** X14. The download raises: the error is answered with the
    unexpected-error template followed by [str(e)], unless it is a
    [TelegramError], which the first except clause takes and answers
    as an upload error.  An error outside [Exception] is taken by
    neither clause and gets no answer: the status message stays the
    last one sent. *)
Theorem download_error_is_reported (O : Collaborators) (link : string) (user_id : Z)
    (w : World) (e : exn) :
  contains HOST_MARKER link = true ->
  tg_send O w (CReplyText MSG_DOWNLOADING) = None ->
  fst (gdown_download O (record_call (CReplyText MSG_DOWNLOADING) w) link) = Raise e ->
  last_text (trace (snd (run_handle_link O link user_id w))) =
    Some (if isinstance e TelegramError then upload_error_text (exn_msg e)
          else if isinstance e Exception then MSG_UNEXPECTED +:+ exn_msg e
          else MSG_DOWNLOADING).
Proof.
  intros Hc Hs Hdl.
  rewrite (handle_link_valid O link user_id w Hc Hs). cbn [snd].
  unfold last_text. rewrite cleanup_chat_texts, guarded_convert_run.
  unfold convert_body, gdown_call, bind, try_entry. cbn [world locals].
  destruct (gdown_download O (record_call (CReplyText MSG_DOWNLOADING) w) link) as [r fs].
  cbn [fst] in Hdl. subst r.
  destruct (isinstance e TelegramError); [|destruct (isinstance e Exception)].
  - rewrite on_telegram_error_run, report_chat_texts. reflexivity.
  - rewrite on_exception_run, report_chat_texts. reflexivity.
  - reflexivity.
Qed.

Lemma download_error_is_reported_witness :
  last_text (trace (snd (run_handle_link
                           (download_raises (mk_exn Exception "Cannot retrieve the public link"))
                           DRIVE_LINK 42 w_ready))) =
    Some "❌ An unexpected error occurred: Cannot retrieve the public link".
Proof.
  exact (download_error_is_reported
           (download_raises (mk_exn Exception "Cannot retrieve the public link"))
           DRIVE_LINK 42 w_ready (mk_exn Exception "Cannot retrieve the public link")
           eq_refl eq_refl eq_refl).
Defined.

(** X15. The video, downloaded to a path that is not the database
    file, is sent and the database file cannot be opened: the append
    of the "done" row raises, the user is told of an unexpected error
    although the upload succeeded, the append of the "error" row
    raises again and that error leaves [handle_link]; nothing is
    written, and the finally clause still removes the file. *)
Theorem sent_video_with_unreachable_database (O : Collaborators) (link : string)
    (user_id : Z) (w : World) (path fid : string) (fs : gset string) (m : string) :
  contains HOST_MARKER link = true ->
  tg_send O w (CReplyText MSG_DOWNLOADING) = None ->
  gdown_download O (record_call (CReplyText MSG_DOWNLOADING) w) link = (Ret (Some path), fs) ->
  path <> EmptyString -> path ∈ fs -> path <> DB_FILE ->
  (forall w', tg_send O w' (CEditText MSG_UPLOADING) = None) ->
  (forall w', open_fault O w' path = None) ->
  (forall w', reply_video O w' path = Ret fid) ->
  (forall w', sql_fault O w' SqlConnect = Some m) ->
  (forall w', tg_send O w' (CEditText (MSG_UNEXPECTED +:+ CONN_UNBOUND)) = None) ->
  (forall w', remove_fault O w' path = None) ->
  fst (run_handle_link O link user_id w) = Raise (mk_exn UnboundLocalError CONN_UNBOUND) /\
  last_text (trace (snd (run_handle_link O link user_id w))) =
    Some (MSG_UNEXPECTED +:+ CONN_UNBOUND) /\
  In (CReplyVideo path) (trace (snd (run_handle_link O link user_id w))) /\
  database (snd (run_handle_link O link user_id w)) = database w /\
  path_exists (snd (run_handle_link O link user_id w)) path = false.
Proof.
  intros Hc Hs Hdl Hne Hin Hdb Hup Hopen Hvid Hconn Hrep Hrm.
  rewrite (handle_link_valid O link user_id w Hc Hs). cbn [fst snd].
  rewrite guarded_convert_run.
  unfold convert_body, gdown_call, edit_text, open_rb, send_video, effect_call,
    set_locals, call, bind, try_entry.
  cbn. rewrite Hdl. cbn. rewrite Hup. cbn.
  rewrite path_exists_on_disk by assumption. rewrite Hopen. cbn. rewrite Hvid. cbn.
  rewrite (log_to_db_unreachable O user_id link (Some fid) "done" _ m (Hconn _)). cbn.
  unfold isinstance; cbn [issubclass exn_cls exn_class_eqb negb].
  rewrite !on_exception_run.
  unfold report, edit_text, effect_call, call, bind. cbn. rewrite Hrep. cbn.
  rewrite (log_to_db_unreachable O user_id link None "error" _ m (Hconn _)). cbn.
  rewrite !cleanup_run. cbn.
  rewrite path_exists_on_disk by assumption. rewrite Hrm. cbn.
  split; [reflexivity|]. split; [reflexivity|]. split; [|split].
  - do 8 right. left. reflexivity.
  - reflexivity.
  - apply path_exists_removed.
Qed.

Lemma sent_video_with_unreachable_database_witness :
  fst (run_handle_link db_unreachable DRIVE_LINK 42 w_ready) =
    Raise (mk_exn UnboundLocalError CONN_UNBOUND) /\
  ledger (database (snd (run_handle_link db_unreachable DRIVE_LINK 42 w_ready))) = [].
Proof.
  destruct (sent_video_with_unreachable_database db_unreachable DRIVE_LINK 42 w_ready
              "video.mp4" "BAACAgQAAxkBAAIB" (∅ ∪ {["video.mp4"]}) "unable to open database file"
              eq_refl eq_refl eq_refl)
    as (Hr & _ & _ & Hdb & _);
    [ discriminate
    | apply elem_of_union_r, elem_of_singleton; reflexivity
    | discriminate
    | intros; reflexivity | intros; reflexivity | intros; reflexivity
    | intros; reflexivity | intros; reflexivity | intros; reflexivity | ].
  split; [exact Hr | rewrite Hdb; reflexivity].
Defined.

(** ** The start of the process *)

(** X16. The script starts polling exactly when [BOT_TOKEN] is set and
    not empty, [setup_database] returned and the application could be
    built; with [BOT_TOKEN] unset or empty it prints its error and
    exits with status 1 without touching the database. *)
Theorem bot_script_polls_iff (O : Collaborators) (build_fault : string -> option exn)
    (BOT_TOKEN : option string) (w : World) (t : string) :
  (ending (bot_script O build_fault BOT_TOKEN w) = Polling t <->
   BOT_TOKEN = Some t /\ t <> EmptyString /\
   fst (run_setup_database O w) = Ret tt /\ build_fault t = None) /\
  (BOT_TOKEN = None \/ BOT_TOKEN = Some EmptyString ->
   bot_script O build_fault BOT_TOKEN w = mk_process [MSG_NO_TOKEN] w (Exited 1)).
Proof.
  split.
  - unfold bot_script, truthy. destruct BOT_TOKEN as [token|].
    + destruct (String.eqb token EmptyString) eqn:He; cbn [negb].
      * apply String.eqb_eq in He. subst token. split; [discriminate|].
        intros (Ht & Hne & _). injection Ht as <-. contradiction.
      * apply String.eqb_neq in He.
        destruct (run_setup_database O w) as [[[]|e] w']; cbn [fst ending].
        -- destruct (build_fault token) as [e|] eqn:Hb; cbn [ending].
           ++ split; [discriminate|].
              intros (Ht & _ & _ & Hb'). injection Ht as <-. congruence.
           ++ split.
              ** intros Hp. injection Hp as <-. auto.
              ** intros (Ht & _). injection Ht as <-. reflexivity.
        -- split; [discriminate|]. intros (_ & _ & Hr & _). discriminate Hr.
    + cbn [ending]. split; [discriminate|]. intros (Ht & _). discriminate Ht.
  - intros [-> | ->]; reflexivity.
Qed.

Lemma bot_script_polls_iff_witness :
  ending (bot_script nominal (fun _ => None) (Some "123456:ABC-DEF") w_fresh) =
    Polling "123456:ABC-DEF".
Proof.
  apply (proj1 (bot_script_polls_iff nominal (fun _ => None) (Some "123456:ABC-DEF") w_fresh
                  "123456:ABC-DEF")).
  repeat split; first [reflexivity | discriminate].
Defined.

(** The greeting is one reply. *)
Lemma start_command_run (O : Collaborators) (w : World) :
  tg_send O w (CReplyText MSG_GREETING) = None ->
  run tt (start_command O) w = (Ret tt, record_call (CReplyText MSG_GREETING) w).
Proof.
  intros Hs. unfold run, start_command, reply_text, effect_call. simpl.
  rewrite Hs. reflexivity.
Qed.

(** X17. With a token set, a database file that cannot be opened
    kills the process at its start: [setup_database] raises its
    [UnboundLocalError] into [main], which has no handler, before the
    application is built and before anything is printed. *)
Theorem bot_script_dies_without_database (O : Collaborators)
    (build_fault : string -> option exn) (token : string) (w : World) (m : string) :
  token <> EmptyString ->
  sql_fault O w SqlConnect = Some m ->
  bot_script O build_fault (Some token) w =
  mk_process []
    (mk_world (files w) (database w)
       (CLog ERROR ("Database error: " +:+ m) :: CSql SqlConnect :: trace w))
    (Died (mk_exn UnboundLocalError CONN_UNBOUND)).
Proof.
  intros Hne Hc. unfold bot_script, truthy.
  apply String.eqb_neq in Hne. rewrite Hne. cbn [negb].
  unfold_db. cbn. rewrite Hc. cbn. reflexivity.
Qed.

Lemma bot_script_dies_without_database_witness :
  ending (bot_script db_unreachable (fun _ => None) (Some "123456:ABC-DEF") w_fresh) =
    Died (mk_exn UnboundLocalError CONN_UNBOUND) /\
  stdout (bot_script db_unreachable (fun _ => None) (Some "123456:ABC-DEF") w_fresh) = [].
Proof.
  rewrite (bot_script_dies_without_database db_unreachable (fun _ => None) "123456:ABC-DEF"
             w_fresh "unable to open database file");
    [split; reflexivity | discriminate | reflexivity].
Defined.
